(** * LiteEth RGMII PHY for the Cologne Chip GateMate FPGA

    A shallow embedding of [liteeth/phy/gatematergmii.py]:

    - the construction-time part of the four classes (table lookup of the
      delay timing, delay-tap computation in binary64 arithmetic, the
      assertions), as functions into an exception monad;
    - the gateware the constructors describe, as synchronous circuits:
      combinational assignments ([self.comb]) are functions of the current
      register values, clocked assignments ([self.sync]) are one step of a
      transition function, one step per tick of the clock domain. *)

From Stdlib Require Import ZArith Bool List String Ascii Lia.
From Stdlib Require Import Floats.SpecFloat.
Import ListNotations.

Local Open Scope Z_scope.
Local Open Scope string_scope.

(** ** Python values used at construction time *)

(** Exceptions the constructors can raise. *)
Inductive exn : Type :=
| KeyError (key : string)
| AssertionError
| ZeroDivisionError
| OverflowError
| ValueError.

Inductive result (A : Type) : Type :=
| Ok (a : A)
| Raise (e : exn).
Arguments Ok {A} a.
Arguments Raise {A} e.

Definition bind {A B : Type} (r : result A) (k : A -> result B) : result B :=
  match r with
  | Ok a => k a
  | Raise e => Raise e
  end.

Notation "x <- r ;; k" := (bind r (fun x => k))
  (at level 61, r at next level, right associativity).

Definition is_ok {A : Type} (r : result A) : bool :=
  match r with Ok _ => true | Raise _ => false end.

(** [assert c] *)
Definition py_assert (c : bool) : result unit :=
  if c then Ok tt else Raise AssertionError.

(** A keyword argument left out by the caller takes the default of the
    signature. *)
Definition default {A : Type} (d : A) (arg : option A) : A :=
  match arg with Some a => a | None => d end.

(** *** Strings *)

(** [str.lower] on one character: the upper-case letters [A]..[Z] move to
    [a]..[z], every other byte is kept.  This is [str.lower] on ASCII
    strings.  Characters outside ASCII are the bytes of their encoding here
    and are kept as they are: none of them lower-cases to a letter that
    occurs in a key of the timing table, so that which names are keys after
    folding is as in Python, but the folded form of such a name is not the
    one of Python. *)
Definition ascii_lower (c : ascii) : ascii :=
  let n := N_of_ascii c in
  if (N.leb 65 n && N.leb n 90)%bool then ascii_of_N (n + 32) else c.

Fixpoint lower (s : string) : string :=
  match s with
  | EmptyString => EmptyString
  | String c r => String (ascii_lower c) (lower r)
  end.

(** *** Dictionaries with string keys, in literal order *)

Definition dict (V : Type) : Type := list (string * V).

Fixpoint dict_find {V : Type} (d : dict V) (k : string) : option V :=
  match d with
  | [] => None
  | (k', v) :: d' => if String.eqb k' k then Some v else dict_find d' k
  end.

(** [d[k]] *)
Definition dict_get {V : Type} (d : dict V) (k : string) : result V :=
  match dict_find d k with
  | Some v => Ok v
  | None => Raise (KeyError k)
  end.

(** *** Floats: IEEE 754 binary64 *)

Definition float : Type := spec_float.

Definition prec : Z := 53.
Definition emax : Z := 1024.

Definition is_zero (x : float) : bool :=
  match x with S754_zero _ => true | _ => false end.

(** [x / y] on floats. *)
Definition py_truediv (x y : float) : result float :=
  if is_zero y then Raise ZeroDivisionError else Ok (SFdiv prec emax x y).

(** [int(x)]: truncation toward zero. *)
Definition py_int (x : float) : result Z :=
  match x with
  | S754_zero _ => Ok 0
  | S754_infinity _ => Raise OverflowError
  | S754_nan => Raise ValueError
  | S754_finite s m e => Ok (cond_Zopp s (Z.shiftl (Zpos m) e))
  end.

(** [math.floor(x)]: the largest integer not above [x]. *)
Definition py_floor (x : float) : result Z :=
  match x with
  | S754_zero _ => Ok 0
  | S754_infinity _ => Raise OverflowError
  | S754_nan => Raise ValueError
  | S754_finite s m e => Ok (Z.shiftl (cond_Zopp s (Zpos m)) e)
  end.

(** [x >= 0] *)
Definition float_ge0 (x : float) : bool := SFleb (S754_zero false) x.

(** [f] is a binary64 number and no other binary64 number is nearer to
    the decimal literal [num * 10^-scale]. *)
Definition is_literal (num : Z) (scale : Z) (f : float) : bool :=
  valid_binary prec emax f &&
  match f with
  | S754_zero _ => Z.eqb num 0
  | S754_finite s m e =>
      if Z.ltb e 0 then
        (* | m * 2^e - |num| * 10^-scale | <= 2^e / 2 *)
        Z.eqb (Z.sgn num) (cond_Zopp s 1) &&
        Z.leb (2 * Z.abs (Zpos m * 10 ^ scale - Z.abs num * 2 ^ (- e)))
              (10 ^ scale)
      else false
  | _ => false
  end.

(** The literals of the source. *)
Definition f_0      : float := S754_zero false.                        (* 0e-9 *)
Definition f_2e_9   : float := S754_finite false 4835703278458517 (-81). (* 2e-9 *)
Definition f_30e_12 : float := S754_finite false 4642275147320176 (-87). (* 30e-12 *)
Definition f_38e_12 : float := S754_finite false 5880215186605556 (-87). (* 38e-12 *)
Definition f_50e_12 : float := S754_finite false 7737125245533627 (-87). (* 50e-12 *)
Definition f_65e_12 : float := S754_finite false 5029131409596857 (-86). (* 65e-12 *)
Definition f_85e_12 : float := S754_finite false 6576556458703583 (-86). (* 85e-12 *)

(** ** Timing data for each performance mode *)

Definition iodly_timing : dict (dict float) :=
  [ ("speed",    [("best", f_30e_12); ("typ", f_38e_12); ("worst", f_50e_12)]);
    ("economy",  [("best", f_38e_12); ("typ", f_50e_12); ("worst", f_65e_12)]);
    ("lowpower", [("best", f_50e_12); ("typ", f_65e_12); ("worst", f_85e_12)]) ].

(** [iodly_timing[perf_mode.lower()]["worst"]] *)
Definition iodly_worst (perf_mode : string) : result float :=
  t <- dict_get iodly_timing (lower perf_mode) ;;
  dict_get t "worst".

(** [int(delay / iodly)] *)
Definition delay_taps (delay iodly : float) : result Z :=
  q <- py_truediv delay iodly ;;
  py_int q.

(** ** Construction *)

(** What the constructors ask of the [pads] object. *)
Record pads_t : Type := {
  has_rst_n : bool;   (* hasattr(pads, "rst_n") *)
  has_mdc   : bool    (* hasattr(pads, "mdc") *)
}.

(** [LiteEthPHYRGMIITX.__init__(self, pads)] raises nothing. *)
Record tx_module : Type := { tx_obuf_delay : Z }.

Definition LiteEthPHYRGMIITX (pads : pads_t) : result tx_module :=
  Ok {| tx_obuf_delay := 0 |}.

(** [LiteEthPHYRGMIIRX.__init__(self, pads, rx_delay=2e-9, perf_mode="undefined")] *)
Record rx_module : Type := {
  rx_iodly      : float;
  rx_delay_taps : Z              (* p_DELAY_IBF of the five CC_IBUF *)
}.

Definition LiteEthPHYRGMIIRX (pads : pads_t)
    (rx_delay : option float) (perf_mode : option string) : result rx_module :=
  let rx_delay := default f_2e_9 rx_delay in
  let perf_mode := default "undefined" perf_mode in
  iodly <- iodly_worst perf_mode ;;
  rx_delay_taps <- delay_taps rx_delay iodly ;;
  _ <- py_assert (Z.ltb rx_delay_taps 16) ;;
  Ok {| rx_iodly := iodly; rx_delay_taps := rx_delay_taps |}.

(** [LiteEthPHYRGMIICRG.__init__(self, clock_pads, pads, with_hw_init_reset,
    tx_delay=2e-9, perf_mode="undefined")] *)
Record crg_module : Type := {
  crg_iodly        : float;
  tx_delay_taps    : Z;          (* p_DELAY_OBF of the clock CC_OBUF *)
  crg_hw_reset     : bool;       (* a LiteEthPHYHWReset was instantiated *)
  crg_drives_rst_n : bool        (* pads.rst_n is driven *)
}.

Definition LiteEthPHYRGMIICRG (pads : pads_t) (with_hw_init_reset : bool)
    (tx_delay : option float) (perf_mode : option string) : result crg_module :=
  let tx_delay := default f_2e_9 tx_delay in
  let perf_mode := default "undefined" perf_mode in
  iodly <- iodly_worst perf_mode ;;
  tx_delay_taps <- delay_taps tx_delay iodly ;;
  _ <- py_assert (Z.ltb tx_delay_taps 16) ;;
  Ok {| crg_iodly := iodly;
        tx_delay_taps := tx_delay_taps;
        crg_hw_reset := with_hw_init_reset;
        crg_drives_rst_n := has_rst_n pads |}.

(** [LiteEthPHYRGMII.__init__(self, clock_pads, pads, with_hw_init_reset=True,
    tx_delay=0e-9, rx_delay=0e-9, perf_mode="undefined")].  The receiver is
    built as [LiteEthPHYRGMIIRX(pads, rx_delay)]: its [perf_mode] is left to
    the default of its own signature. *)
Record phy_module : Type := {
  phy_crg  : crg_module;
  phy_tx   : tx_module;
  phy_rx   : rx_module;
  phy_mdio : bool                (* a LiteEthPHYMDIO was instantiated *)
}.

Definition LiteEthPHYRGMII (pads : pads_t) (with_hw_init_reset : option bool)
    (tx_delay rx_delay : option float) (perf_mode : option string)
    : result phy_module :=
  let with_hw_init_reset := default true with_hw_init_reset in
  let tx_delay := default f_0 tx_delay in
  let rx_delay := default f_0 rx_delay in
  let perf_mode := default "undefined" perf_mode in
  crg <- LiteEthPHYRGMIICRG pads with_hw_init_reset (Some tx_delay) (Some perf_mode) ;;
  tx <- LiteEthPHYRGMIITX pads ;;
  rx <- LiteEthPHYRGMIIRX pads (Some rx_delay) None ;;
  Ok {| phy_crg := crg; phy_tx := tx; phy_rx := rx; phy_mdio := has_mdc pads |}.

(** ** Gateware *)

Local Open Scope bool_scope.

(** *** Signals *)

(** A line clocked at double data rate carries two sub-samples per tick of
    its clock domain. *)
Record ddr : Type := { rise : bool; fall : bool }.

(** Bit [i] of a multi-bit signal, [sig[i]]. *)
Definition bit (sig : Z) (i : nat) : bool := Z.testbit sig (Z.of_nat i).

(** The signal whose bits are [bs], least significant first. *)
Fixpoint pack (bs : list bool) : Z :=
  match bs with
  | [] => 0
  | b :: r => Z.b2z b + 2 * pack r
  end.

(** *** Primitives *)

(** [DDROutput(clk, i1, i2, o)]: [i1] goes out on the rising edge, [i2] on
    the falling edge. *)
Definition DDROutput (i1 i2 : bool) : ddr := {| rise := i1; fall := i2 |}.

(** [DDRInput(clk, i, o1, o2)]: the cell captures the sub-samples of the tick;
    [o1] is the one of the rising edge, [o2] the one of the falling edge. *)
Definition DDRInput (i : ddr) : bool * bool := (rise i, fall i).

(** [CC_OBUF] and [CC_IBUF] with [DELAY_OBF], [DELAY_IBF] taps: the delay
    line moves the line by a fraction of a tick; which sub-sample belongs to
    which tick does not change. *)
Definition CC_OBUF (DELAY_OBF : Z) (a : ddr) : ddr := a.
Definition CC_IBUF (DELAY_IBF : Z) (i : ddr) : ddr := i.

(** [range(4)] *)
Definition range4 : list nat := [0; 1; 2; 3]%nat.

(** *** LiteEthPHYRGMIITX *)

(** The fields of [eth_phy_description(8)] the PHY reads or drives. *)
Record stream : Type := {
  valid : bool;
  last  : bool;
  data  : Z
}.

Record tx_pads : Type := {
  tx_ctl  : ddr;
  tx_data : list ddr        (* pads.tx_data[0..3] *)
}.

(** The transmitter is combinational: what the pads carry in a tick is a
    function of what the sink carries in that tick. *)
Definition tx_pads_of (sink : stream) : tx_pads :=
  {| tx_ctl  := CC_OBUF 0 (DDROutput (valid sink) (valid sink));
     tx_data := map (fun i => CC_OBUF 0 (DDROutput (bit (data sink) i)
                                                   (bit (data sink) (4 + i))))
                    range4 |}.

(** [sink.ready.eq(1)] *)
Definition tx_sink_ready (sink : stream) : bool := true.

(** The nibble the four data lines carry on each of the two edges. *)
Definition rise_nibble (p : tx_pads) : Z := pack (map rise (tx_data p)).
Definition fall_nibble (p : tx_pads) : Z := pack (map fall (tx_data p)).

(** *** LiteEthPHYRGMIIRX *)

Record rx_pads : Type := {
  rx_ctl_pad  : ddr;
  rx_data_pad : nat -> ddr  (* pads.rx_data[0..3] *)
}.

(** The registers of the receiver.  [rx_ctl] and [rx_data] are held by the
    [DDRInput] cells, the others by [self.sync]. *)
Record rx_state : Type := {
  rx_ctl       : Z;   (* Signal(2) *)
  rx_data      : Z;   (* Signal(8) *)
  rx_ctl_reg   : Z;   (* Signal(2) *)
  rx_data_reg  : Z;   (* Signal(8) *)
  rx_ctl_reg_d : Z;   (* Signal(2) *)
  source_valid : bool;
  source_data  : Z    (* Signal(8) *)
}.

(** Every register starts at zero. *)
Definition rx_reset_state : rx_state :=
  {| rx_ctl := 0; rx_data := 0; rx_ctl_reg := 0; rx_data_reg := 0;
     rx_ctl_reg_d := 0; source_valid := false; source_data := 0 |}.

(** [last.eq(~rx_ctl_reg[0] & rx_ctl_reg_d[0])] *)
Definition rx_last (s : rx_state) : bool :=
  negb (bit (rx_ctl_reg s) 0) && bit (rx_ctl_reg_d s) 0.

(** What the source endpoint carries during a tick:
    [source.last.eq(last)], [source.valid] and [source.data] are registers. *)
Definition rx_source (s : rx_state) : stream :=
  {| valid := source_valid s; last := rx_last s; data := source_data s |}.

(** What the [DDRInput] cells capture in a tick. *)
Definition rx_ctl_sample (m : rx_module) (p : rx_pads) : Z :=
  let '(o1, o2) := DDRInput (CC_IBUF (rx_delay_taps m) (rx_ctl_pad p)) in
  pack [o1; o2].

Definition rx_data_sample (m : rx_module) (p : rx_pads) : Z :=
  let cells := map (fun i => DDRInput (CC_IBUF (rx_delay_taps m) (rx_data_pad p i)))
                   range4 in
  pack (map fst cells ++ map snd cells).

(** One tick of the [eth_rx] domain.  [rst] is the reset of the domain at
    the clock edge: the registers of [self.sync] take their reset value,
    except [source.data], which as payload of a stream endpoint has none;
    the [DDRInput] cells have no reset. *)
Definition rx_step (m : rx_module) (rst : bool) (p : rx_pads) (s : rx_state)
    : rx_state :=
  {| rx_ctl       := rx_ctl_sample m p;
     rx_data      := rx_data_sample m p;
     rx_ctl_reg   := if rst then 0 else rx_ctl s;
     rx_data_reg  := if rst then 0 else rx_data s;
     rx_ctl_reg_d := if rst then 0 else rx_ctl_reg s;
     source_valid := if rst then false else bit (rx_ctl_reg s) 0;
     source_data  := rx_data_reg s |}.

(** The state of the receiver during tick [t], when [rsts t] and [pads t]
    are the reset and the pads at the clock edge that ends tick [t]. *)
Fixpoint rx_run (m : rx_module) (rsts : nat -> bool) (pads : nat -> rx_pads)
    (s0 : rx_state) (t : nat) : rx_state :=
  match t with
  | O => s0
  | S t' => rx_step m (rsts t') (pads t') (rx_run m rsts pads s0 t')
  end.

(** *** LiteEthPHYRGMIICRG *)

(** [reset.eq(self._reset.storage | self.hw_reset.reset)] when the module
    was built with the power-on reset, [reset.eq(self._reset.storage)]
    otherwise.  [storage] is the CSR bit; [hw_reset] is the output of
    [LiteEthPHYHWReset]. *)
Definition crg_reset (m : crg_module) (storage hw_reset : bool) : bool :=
  if crg_hw_reset m then storage || hw_reset else storage.

(** [pads.rst_n.eq(~reset)], when the pad exists. *)
Definition crg_rst_n (m : crg_module) (storage hw_reset : bool) : option bool :=
  if crg_drives_rst_n m then Some (negb (crg_reset m storage hw_reset)) else None.

(** [AsyncResetSynchronizer(cd, async_reset)]: two flip-flops in a chain,
    both set at once while [async_reset] is high; the second one drives
    [cd.rst]. *)
Record rsync_state : Type := { rst_meta : bool; rst_sync : bool }.

Definition rsync_step (async_reset : bool) (s : rsync_state) : rsync_state :=
  if async_reset then {| rst_meta := true; rst_sync := true |}
  else {| rst_meta := false; rst_sync := rst_meta s |}.

(** The reset of the domain during a tick. *)
Definition cd_rst (async_reset : bool) (s : rsync_state) : bool :=
  async_reset || rst_sync s.

(** *** LiteEthPHYRGMII *)

Record phy_in : Type := {
  in_storage  : bool;        (* crg._reset.storage *)
  in_hw_reset : bool;        (* crg.hw_reset.reset *)
  in_sink     : stream;
  in_rx_pads  : rx_pads
}.

Record phy_state : Type := {
  st_rx      : rx_state;
  st_rx_sync : rsync_state;  (* AsyncResetSynchronizer(self.cd_eth_rx, reset) *)
  st_tx_sync : rsync_state   (* AsyncResetSynchronizer(self.cd_eth_tx, reset) *)
}.

Record phy_out : Type := {
  out_tx_pads : tx_pads;
  out_rst_n   : option bool;
  out_source  : stream;
  out_ready   : bool
}.

Definition phy_reset (crg : crg_module) (i : phy_in) : bool :=
  crg_reset crg (in_storage i) (in_hw_reset i).

Definition phy_output (crg : crg_module) (s : phy_state) (i : phy_in) : phy_out :=
  {| out_tx_pads := tx_pads_of (in_sink i);
     out_rst_n   := crg_rst_n crg (in_storage i) (in_hw_reset i);
     out_source  := rx_source (st_rx s);
     out_ready   := tx_sink_ready (in_sink i) |}.

Definition phy_step (crg : crg_module) (rx : rx_module) (i : phy_in)
    (s : phy_state) : phy_state :=
  let reset := phy_reset crg i in
  {| st_rx      := rx_step rx (cd_rst reset (st_rx_sync s)) (in_rx_pads i) (st_rx s);
     st_rx_sync := rsync_step reset (st_rx_sync s);
     st_tx_sync := rsync_step reset (st_tx_sync s) |}.

Fixpoint phy_run (crg : crg_module) (rx : rx_module) (ins : nat -> phy_in)
    (s0 : phy_state) (t : nat) : phy_state :=
  match t with
  | O => s0
  | S t' => phy_step crg rx (ins t') (phy_run crg rx ins s0 t')
  end.

(** ** Inputs of the examples, and properties as stated *)

(** The profile names of the table, after case folding. *)
Definition recognized (perf_mode : string) : bool :=
  String.eqb "speed" (lower perf_mode)
  || String.eqb "economy" (lower perf_mode)
  || String.eqb "lowpower" (lower perf_mode).

(** A positive finite binary64 number, as every delay of the table is. *)
Definition positive_finite (x : float) : bool :=
  match x with S754_finite false _ _ => true | _ => false end.

(** The literals used in the examples. *)
Definition f_m1e_9  : float := S754_finite true  4835703278458517 (-82). (* -1e-9 *)
Definition f_1e_9   : float := S754_finite false 4835703278458517 (-82). (* 1e-9 *)
Definition f_075e_9 : float := S754_finite false 7253554917687775 (-83). (* 0.75e-9 *)

Definition pads_full : pads_t := {| has_rst_n := true; has_mdc := true |}.

Definition byte_stream (x : Z) : stream :=
  {| valid := true; last := false; data := x |}.

Definition idle_line : ddr := {| rise := false; fall := false |}.
Definition busy_line : ddr := {| rise := true; fall := true |}.

(** The control line is high during the [n] ticks from tick [T] on. *)
Definition frame_pads (T n : nat) (t : nat) : rx_pads :=
  {| rx_ctl_pad  := if Nat.leb T t && Nat.ltb t (T + n) then busy_line
                    else idle_line;
     rx_data_pad := fun _ => idle_line |}.

Definition no_reset (t : nat) : bool := false.

Definition rx_taps (n : Z) : rx_module :=
  {| rx_iodly := f_50e_12; rx_delay_taps := n |}.

(** The source during tick [t] for a frame of two bytes on the pads in ticks
    0 and 1. *)
Definition two_byte_frame (t : nat) : stream :=
  rx_source (rx_run (rx_taps 0) no_reset (frame_pads 0 2) rx_reset_state t).

(** The formula of C3 as stated, [~stage2 & stage1 of the tick before], at
    tick [S t], for two registers of the control path taken for stage 1 and
    stage 2. *)
Definition last_formula (stage1 stage2 : rx_state -> bool)
    (tr : nat -> rx_state) (t : nat) : bool :=
  negb (stage2 (tr (S t))) && stage1 (tr t).

Definition last_is_formula (stage1 stage2 : rx_state -> bool) : Prop :=
  forall (m : rx_module) (rsts : nat -> bool) (pads : nat -> rx_pads)
         (s0 : rx_state) (t : nat),
    rx_last (rx_run m rsts pads s0 (S t))
      = last_formula stage1 stage2 (rx_run m rsts pads s0) t.

(** C2 as stated: [last] marks the tick after the final valid byte. *)
Definition last_after_final_byte (out : nat -> stream) : Prop :=
  forall t, valid (out t) = true -> valid (out (S t)) = false ->
            last (out (S t)) = true.

Definition crg_example : crg_module :=
  {| crg_iodly := f_50e_12; tx_delay_taps := 0;
     crg_hw_reset := true; crg_drives_rst_n := true |}.

(** The reset request is set and the sink offers a byte. *)
Definition in_reset_with_byte : phy_in :=
  {| in_storage := true; in_hw_reset := false;
     in_sink := byte_stream 0xFF;
     in_rx_pads := frame_pads 0 0 0 |}.

Definition phy_reset_state : phy_state :=
  {| st_rx := rx_reset_state;
     st_rx_sync := {| rst_meta := true; rst_sync := true |};
     st_tx_sync := {| rst_meta := true; rst_sync := true |} |}.

(** C8 as stated, for the [eth_tx] domain: in reset the control line of the
    transmitter is low. *)
Definition tx_idle_in_reset : Prop :=
  forall (crg : crg_module) (s : phy_state) (i : phy_in),
    phy_reset crg i = true ->
    tx_ctl (out_tx_pads (phy_output crg s i)) = idle_line.

(** The source has neither [valid] nor [last]. *)
Definition quiet (s : phy_state) : Prop :=
  source_valid (st_rx s) = false /\ rx_last (st_rx s) = false.

(** A frame of twenty bytes from tick 0 on; the reset request is set during
    tick 2 only. *)
Definition reset_in_frame (t : nat) : phy_in :=
  {| in_storage := Nat.eqb t 2; in_hw_reset := false;
     in_sink := byte_stream 0;
     in_rx_pads := frame_pads 0 20 t |}.

Definition phy_released_state : phy_state :=
  {| st_rx := rx_reset_state;
     st_rx_sync := {| rst_meta := false; rst_sync := false |};
     st_tx_sync := {| rst_meta := false; rst_sync := false |} |}.

(** The pads of a transmitter wired to the pads of a receiver. *)
Definition loopback (p : tx_pads) : rx_pads :=
  {| rx_ctl_pad  := tx_ctl p;
     rx_data_pad := fun i => nth i (tx_data p) idle_line |}.

(** Every register of the receiver holds a value of its width. *)
Definition rx_in_width (s : rx_state) : Prop :=
  0 <= rx_ctl s < 4 /\ 0 <= rx_data s < 256 /\
  0 <= rx_ctl_reg s < 4 /\ 0 <= rx_data_reg s < 256 /\
  0 <= rx_ctl_reg_d s < 4 /\ 0 <= source_data s < 256.

(** Two values of the receive pads that agree on everything but the
    falling-edge sample of the control line. *)
Definition agree_but_ctl_fall (p q : rx_pads) : Prop :=
  rise (rx_ctl_pad p) = rise (rx_ctl_pad q) /\
  forall i, (i < 4)%nat -> rx_data_pad p i = rx_data_pad q i.

(** No frame is on its way through the control path of the receiver. *)
Definition rx_idle (s : rx_state) : Prop :=
  bit (rx_ctl s) 0 = false /\ bit (rx_ctl_reg s) 0 = false /\
  bit (rx_ctl_reg_d s) 0 = false /\ source_valid s = false.


(** A string of ASCII characters, on which [lower] is [str.lower]. *)
Definition is_ascii_char (c : ascii) : bool := N.ltb (N_of_ascii c) 128.

Fixpoint is_ascii (s : string) : bool :=
  match s with
  | EmptyString => true
  | String c r => is_ascii_char c && is_ascii r
  end.

(** The capital of a small letter. *)
Definition is_small_letter (c : ascii) : bool :=
  N.leb 97 (N_of_ascii c) && N.leb (N_of_ascii c) 122.

Definition ascii_upper (c : ascii) : ascii :=
  if is_small_letter c then ascii_of_N (N_of_ascii c - 32) else c.

Fixpoint small_letters (s : string) : bool :=
  match s with
  | EmptyString => true
  | String c r => is_small_letter c && small_letters r
  end.

(** [pm] is [key] in some letter case: letter by letter, the letter of
    [key] or its capital. *)
Fixpoint case_variant (pm key : string) : bool :=
  match pm, key with
  | EmptyString, EmptyString => true
  | String a r, String k r' =>
      (Ascii.eqb a k || Ascii.eqb a (ascii_upper k)) && case_variant r r'
  | _, _ => false
  end.

(** The keys of the timing table. *)
Definition profile_names : list string := map fst iodly_timing.

(** * Properties *)

(** ** The timing table *)

Lemma iodly_worst_cases (perf_mode : string) :
  iodly_worst perf_mode =
    if String.eqb "speed" (lower perf_mode) then Ok f_50e_12
    else if String.eqb "economy" (lower perf_mode) then Ok f_65e_12
    else if String.eqb "lowpower" (lower perf_mode) then Ok f_85e_12
    else Raise (KeyError (lower perf_mode)).
Proof.
  unfold iodly_worst, dict_get, iodly_timing.
  cbn [dict_find].
  destruct (String.eqb "speed" (lower perf_mode)); [reflexivity|].
  destruct (String.eqb "economy" (lower perf_mode)); [reflexivity|].
  destruct (String.eqb "lowpower" (lower perf_mode)); reflexivity.
Qed.

Lemma iodly_worst_unknown (perf_mode : string) :
  recognized perf_mode = false ->
  iodly_worst perf_mode = Raise (KeyError (lower perf_mode)).
Proof.
  unfold recognized. intros H.
  apply orb_false_elim in H as [H H3].
  apply orb_false_elim in H as [H1 H2].
  rewrite iodly_worst_cases, H1, H2, H3. reflexivity.
Qed.


Lemma iodly_worst_positive (perf_mode : string) (w : float) :
  iodly_worst perf_mode = Ok w -> positive_finite w = true.
Proof.
  rewrite iodly_worst_cases.
  destruct (String.eqb "speed" (lower perf_mode)); [now intros [= <-]|].
  destruct (String.eqb "economy" (lower perf_mode)); [now intros [= <-]|].
  destruct (String.eqb "lowpower" (lower perf_mode)); [now intros [= <-]|].
  discriminate.
Qed.

(** The table holds the binary64 numbers nearest to the decimal literals. *)
Lemma literals_rounded :
  is_literal 0 9 f_0 = true /\ is_literal 2 9 f_2e_9 = true /\
  is_literal 30 12 f_30e_12 = true /\ is_literal 38 12 f_38e_12 = true /\
  is_literal 50 12 f_50e_12 = true /\ is_literal 65 12 f_65e_12 = true /\
  is_literal 85 12 f_85e_12 = true.
Proof. repeat split; vm_compute; reflexivity. Qed.

(** ** Delay taps *)

(** Rounding keeps the sign it is given. *)
Lemma binary_round_aux_sign (sx : bool) (mx ex : Z) (lx : location) :
  match binary_round_aux prec emax sx mx ex lx with
  | S754_finite s _ _ => s = sx
  | _ => True
  end.
Proof.
  unfold binary_round_aux.
  destruct (shr_fexp prec emax mx ex lx) as [mrs' e'].
  destruct (shr_fexp prec emax _ e' loc_Exact) as [mrs'' e''].
  destruct (shr_m mrs''); auto.
  destruct (Z.leb e'' (emax - prec)); auto.
Qed.

(** A quotient of a float [>= 0] by a positive one is never a negative
    finite number. *)
Lemma SFdiv_ge0 (x y : float) :
  float_ge0 x = true -> positive_finite y = true ->
  match SFdiv prec emax x y with
  | S754_finite s _ _ => s = false
  | _ => True
  end.
Proof.
  intros Hx Hy.
  destruct y as [ | | |[|] my ey]; try discriminate Hy.
  destruct x as [sx|sx| |sx mx ex]; cbn [SFdiv]; auto.
  destruct sx; [discriminate Hx|].
  destruct (SFdiv_core_binary prec emax (Z.pos mx) ex (Z.pos my) ey) as [[mz ez] lz].
  apply (binary_round_aux_sign (xorb false false)).
Qed.

Lemma positive_finite_not_zero (y : float) :
  positive_finite y = true -> is_zero y = false.
Proof. destruct y as [ | | |[|] ? ?]; now try discriminate. Qed.

(** On such a quotient truncation and floor agree, and give no negative
    number. *)
Lemma delay_taps_floor (d w : float) :
  float_ge0 d = true -> positive_finite w = true ->
  delay_taps d w = (q <- py_truediv d w ;; py_floor q) /\
  (forall n, delay_taps d w = Ok n -> 0 <= n).
Proof.
  intros Hd Hw. unfold delay_taps, py_truediv.
  rewrite (positive_finite_not_zero _ Hw). cbn [bind].
  pose proof (SFdiv_ge0 d w Hd Hw) as Hs.
  destruct (SFdiv prec emax d w) as [s|s| |s m e]; cbn [py_int py_floor].
  - split; [reflexivity|]. intros n [= <-]. lia.
  - split; [reflexivity|]. discriminate.
  - split; [reflexivity|]. discriminate.
  - subst s. cbn [cond_Zopp]. split; [reflexivity|].
    intros n [= <-]. apply Z.shiftl_nonneg. lia.
Qed.

(** Both constructors that compute a tap count run the same three steps. *)
Lemma LiteEthPHYRGMIIRX_steps (pads : pads_t) (d : float) (pm : string) :
  LiteEthPHYRGMIIRX pads (Some d) (Some pm) =
    (w <- iodly_worst pm ;;
     n <- delay_taps d w ;;
     _ <- py_assert (Z.ltb n 16) ;;
     Ok {| rx_iodly := w; rx_delay_taps := n |}).
Proof. reflexivity. Qed.

Lemma LiteEthPHYRGMIICRG_steps (pads : pads_t) (hw : bool) (d : float) (pm : string) :
  LiteEthPHYRGMIICRG pads hw (Some d) (Some pm) =
    (w <- iodly_worst pm ;;
     n <- delay_taps d w ;;
     _ <- py_assert (Z.ltb n 16) ;;
     Ok {| crg_iodly := w; tx_delay_taps := n;
           crg_hw_reset := hw; crg_drives_rst_n := has_rst_n pads |}).
Proof. reflexivity. Qed.

Lemma example_literals_rounded :
  is_literal (-1) 9 f_m1e_9 = true /\ is_literal 1 9 f_1e_9 = true /\
  is_literal 75 11 f_075e_9 = true.
Proof. repeat split; vm_compute; reflexivity. Qed.

Lemma recognized_spec (pm : string) :
  recognized pm = true <->
  lower pm = "speed" \/ lower pm = "economy" \/ lower pm = "lowpower".
Proof.
  unfold recognized. rewrite !orb_true_iff, !String.eqb_eq.
  intuition congruence.
Qed.

Lemma not_recognized_spec (pm : string) :
  recognized pm = false <->
  lower pm <> "speed" /\ lower pm <> "economy" /\ lower pm <> "lowpower".
Proof.
  unfold recognized. rewrite !orb_false_iff, !String.eqb_neq.
  intuition congruence.
Qed.

(** The top-level constructor never returns a module: either the clock and
    reset generator raises, or the receiver, built without a profile name,
    raises on its default one. *)
Lemma LiteEthPHYRGMII_raises (pads : pads_t) (hw : option bool)
    (td rd : option float) (pm : option string) :
  is_ok (LiteEthPHYRGMII pads hw td rd pm) = false /\
  (is_ok (LiteEthPHYRGMIICRG pads (default true hw) (Some (default f_0 td))
                             (Some (default "undefined" pm))) = true ->
   LiteEthPHYRGMII pads hw td rd pm = Raise (KeyError "undefined")).
Proof.
  unfold LiteEthPHYRGMII.
  destruct (LiteEthPHYRGMIICRG pads (default true hw) (Some (default f_0 td))
                               (Some (default "undefined" pm))) as [crg|e].
  - split; reflexivity.
  - split; [reflexivity|discriminate].
Qed.

(** ** Construction: the claims *)

(** C1 (the code departs from it).  With the recognized profile ["speed"]
    and both delays zero, so that both tap counts are 0, the clock and reset
    generator and the receiver can each be built with that profile, but
    [LiteEthPHYRGMII] raises [KeyError("undefined")]: it builds the receiver
    without handing the profile on. *)
Theorem C1_recognized_profile_still_raises :
  delay_taps f_0 f_50e_12 = Ok 0 /\
  is_ok (LiteEthPHYRGMIICRG pads_full true (Some f_0) (Some "speed")) = true /\
  is_ok (LiteEthPHYRGMIIRX pads_full (Some f_0) (Some "speed")) = true /\
  LiteEthPHYRGMII pads_full (Some true) (Some f_0) (Some f_0) (Some "speed")
    = Raise (KeyError "undefined").
Proof. repeat split; vm_compute; reflexivity. Qed.

(** C10.  Built without [perf_mode], [LiteEthPHYRGMII] raises: the default
    name ["undefined"] is no key of the timing table, whatever the other
    arguments are. *)
Theorem C10_default_profile_raises (pads : pads_t) (hw : option bool)
    (td rd : option float) :
  recognized "undefined" = false /\
  iodly_worst "undefined" = Raise (KeyError "undefined") /\
  LiteEthPHYRGMII pads hw td rd None = Raise (KeyError "undefined").
Proof. repeat split. Qed.

(** Folding a small letter or its capital gives the small letter, and
    nothing else folds to it. *)
Lemma ascii_lower_letter (k : ascii) :
  is_small_letter k = true ->
  ascii_lower k = k /\ ascii_lower (ascii_upper k) = k.
Proof.
  destruct k as [b0 b1 b2 b3 b4 b5 b6 b7].
  destruct b0, b1, b2, b3, b4, b5, b6, b7; intros H;
    vm_compute in H; try discriminate H; split; reflexivity.
Qed.

Lemma ascii_lower_letter_inv (a k : ascii) :
  is_small_letter k = true -> ascii_lower a = k ->
  Ascii.eqb a k || Ascii.eqb a (ascii_upper k) = true.
Proof.
  intros H E. subst k.
  destruct a as [b0 b1 b2 b3 b4 b5 b6 b7].
  destruct b0, b1, b2, b3, b4, b5, b6, b7;
    vm_compute in H; try discriminate H; reflexivity.
Qed.

(** Every letter-case variant of a name in small letters folds to it. *)
Lemma case_variant_lower (key pm : string) :
  small_letters key = true -> case_variant pm key = true -> lower pm = key.
Proof.
  revert pm. induction key as [|k r IH]; intros [|a pm] S V;
    try discriminate V; [reflexivity|].
  cbn [small_letters] in S. apply andb_true_iff in S as [Sk Sr].
  cbn [case_variant] in V. apply andb_true_iff in V as [Va Vr].
  destruct (ascii_lower_letter k Sk) as [L U].
  cbn [lower]. rewrite (IH pm Sr Vr). f_equal.
  apply orb_true_iff in Va as [E|E]; apply Ascii.eqb_eq in E; subst a; assumption.
Qed.

(** Only its letter-case variants fold to a name in small letters. *)
Lemma lower_case_variant (key pm : string) :
  small_letters key = true -> lower pm = key -> case_variant pm key = true.
Proof.
  revert pm. induction key as [|k r IH]; intros [|a pm] S E;
    try discriminate E; [reflexivity|].
  cbn [small_letters] in S. apply andb_true_iff in S as [Sk Sr].
  cbn [lower] in E. injection E as Ea Er.
  cbn [case_variant]. rewrite (IH pm Sr Er), andb_true_r.
  exact (ascii_lower_letter_inv a k Sk Ea).
Qed.

Lemma is_ascii_lower (pm : string) : is_ascii pm = true -> is_ascii (lower pm) = true.
Proof.
  induction pm as [|a r IH]; [reflexivity|].
  cbn [is_ascii lower]. intros H. apply andb_true_iff in H as [Ha Hr].
  rewrite (IH Hr), andb_true_r. revert Ha.
  destruct a as [b0 b1 b2 b3 b4 b5 b6 b7].
  destruct b0, b1, b2, b3, b4, b5, b6, b7; intros H;
    vm_compute in H; try discriminate H; reflexivity.
Qed.

(** C6.  A profile name that is none of the three names after case folding
    makes the table lookup, hence the receiver, the clock and reset
    generator and the top level, raise [KeyError]: no module is built, with
    no profile in the place of the unknown one; for a name of ASCII
    characters the key of the error is the folded name.  Conversely, each of
    the three names is accepted in any letter case: a name that is, letter by
    letter, a letter of a table key or its capital folds to that key and is
    looked up as that key, so that the receiver and the clock and reset
    generator go on to the tap count with the worst-case delay of that
    profile, and are built when the delay is zero.  The names that fold to a
    key are exactly its letter-case variants. *)
Theorem C6_profile_names (pads : pads_t) (pm : string) :
  (lower pm <> "speed" /\ lower pm <> "economy" /\ lower pm <> "lowpower" ->
     exists k,
       (is_ascii pm = true -> k = lower pm /\ is_ascii k = true) /\
       iodly_worst pm = Raise (KeyError k) /\
       (forall d, LiteEthPHYRGMIIRX pads d (Some pm) = Raise (KeyError k)) /\
       (forall hw d, LiteEthPHYRGMIICRG pads hw d (Some pm) = Raise (KeyError k)) /\
       (forall hw td rd, LiteEthPHYRGMII pads hw td rd (Some pm) = Raise (KeyError k)))
  /\
  (forall key, In key profile_names -> case_variant pm key = true ->
     lower pm = key /\
     exists t w,
       dict_find iodly_timing key = Some t /\
       dict_find t "worst" = Some w /\
       iodly_worst pm = Ok w /\
       (forall d, LiteEthPHYRGMIIRX pads (Some d) (Some pm) =
                  (n <- delay_taps d w ;; _ <- py_assert (Z.ltb n 16) ;;
                   Ok {| rx_iodly := w; rx_delay_taps := n |})) /\
       (forall hw d, LiteEthPHYRGMIICRG pads hw (Some d) (Some pm) =
                  (n <- delay_taps d w ;; _ <- py_assert (Z.ltb n 16) ;;
                   Ok {| crg_iodly := w; tx_delay_taps := n;
                         crg_hw_reset := hw; crg_drives_rst_n := has_rst_n pads |})) /\
       LiteEthPHYRGMIIRX pads (Some f_0) (Some pm)
         = Ok {| rx_iodly := w; rx_delay_taps := 0 |})
  /\
  (forall key, In key profile_names ->
     (lower pm = key <-> case_variant pm key = true)).
Proof.
  assert (SL : forall key, In key profile_names -> small_letters key = true).
  { intros key [<-|[<-|[<-|[]]]]; reflexivity. }
  split; [|split].
  - intros H. apply not_recognized_spec in H.
    pose proof (iodly_worst_unknown pm H) as E.
    exists (lower pm).
    split; [intros A; split; [reflexivity|exact (is_ascii_lower pm A)]|].
    split; [exact E|]. split; [|split].
    + intros d. unfold LiteEthPHYRGMIIRX. cbn [default]. now rewrite E.
    + intros hw d. unfold LiteEthPHYRGMIICRG. cbn [default]. now rewrite E.
    + intros hw td rd. unfold LiteEthPHYRGMII, LiteEthPHYRGMIICRG.
      cbn [default]. now rewrite E.
  - intros key Hkey V.
    pose proof (case_variant_lower key pm (SL key Hkey) V) as F.
    split; [exact F|].
    assert (K : exists t w, dict_find iodly_timing key = Some t /\
                            dict_find t "worst" = Some w).
    { destruct Hkey as [<-|[<-|[<-|[]]]]; do 2 eexists; split; reflexivity. }
    destruct K as (t & w & Ht & Hw).
    assert (E : iodly_worst pm = Ok w).
    { unfold iodly_worst, dict_get. rewrite F, Ht. cbn [bind]. now rewrite Hw. }
    exists t, w. repeat split; auto.
    + intros d. rewrite LiteEthPHYRGMIIRX_steps, E. reflexivity.
    + intros hw d. rewrite LiteEthPHYRGMIICRG_steps, E. reflexivity.
    + rewrite LiteEthPHYRGMIIRX_steps, E. cbn [bind].
      pose proof (iodly_worst_positive pm w E) as P.
      destruct w as [ | | |[|] m e]; try discriminate P. reflexivity.
  - intros key Hkey. split.
    + apply lower_case_variant. exact (SL key Hkey).
    + apply case_variant_lower. exact (SL key Hkey).
Qed.

Lemma C6_profile_names_witness :
  iodly_worst "turbo" = Raise (KeyError "turbo") /\
  LiteEthPHYRGMIIRX pads_full None (Some "Turbo") = Raise (KeyError "turbo") /\
  iodly_worst "ECONOMY" = Ok f_65e_12 /\
  iodly_worst "LowPoweR" = Ok f_85e_12 /\
  iodly_worst "sPEed" = Ok f_50e_12.
Proof.
  destruct (C6_profile_names pads_full "turbo") as [U _].
  destruct (C6_profile_names pads_full "Turbo") as [U' _].
  destruct (C6_profile_names pads_full "ECONOMY") as (_ & K1 & _).
  destruct (C6_profile_names pads_full "LowPoweR") as (_ & K2 & _).
  destruct (C6_profile_names pads_full "sPEed") as (_ & K3 & _).
  destruct U as (k & A & U1 & _); [repeat split; discriminate|].
  destruct (A eq_refl) as [-> _].
  destruct U' as (k' & A' & _ & U2 & _); [repeat split; discriminate|].
  destruct (A' eq_refl) as [-> _].
  destruct (K1 "economy") as (_ & t1 & w1 & Ht1 & Hw1 & E1 & _);
    [right; left; reflexivity|reflexivity|].
  destruct (K2 "lowpower") as (_ & t2 & w2 & Ht2 & Hw2 & E2 & _);
    [right; right; left; reflexivity|reflexivity|].
  destruct (K3 "speed") as (_ & t3 & w3 & Ht3 & Hw3 & E3 & _);
    [left; reflexivity|reflexivity|].
  injection Ht1 as <-. injection Hw1 as <-.
  injection Ht2 as <-. injection Hw2 as <-.
  injection Ht3 as <-. injection Hw3 as <-.
  split; [exact U1|]. split; [exact (U2 None)|].
  split; [exact E1|]. split; [exact E2|exact E3].
Defined.

(** The floor is taken of the binary64 quotient.  For [0.75e-9] and the
    profile ["speed"] the quotient rounds to 15.0 and the tap count is 15,
    while the two binary64 operands, divided exactly, give a little less
    than 15. *)
Remark taps_of_rounded_quotient :
  delay_taps f_075e_9 f_50e_12 = Ok 15 /\
  7253554917687775 * 2 ^ 87 < 15 * (7737125245533627 * 2 ^ 83).
Proof. split; [vm_compute; reflexivity|]. reflexivity. Qed.

(** Truncation and floor differ below zero. *)
Remark taps_of_negative_delay :
  delay_taps f_m1e_9 f_65e_12 = Ok (-15) /\
  (q <- py_truediv f_m1e_9 f_65e_12 ;; py_floor q) = Ok (-16).
Proof. split; vm_compute; reflexivity. Qed.

(** C5 as stated fails: the delay [-1e-9] with the profile ["speed"] gives
    the tap count -20, outside [0, 16), and the receiver is built. *)
Lemma C5_negative_taps_accepted :
  ~ (forall (pads : pads_t) (d : float) (pm : string) (w : float) (n : Z),
       iodly_worst pm = Ok w -> delay_taps d w = Ok n -> ~ (0 <= n < 16) ->
       exists e, LiteEthPHYRGMIIRX pads (Some d) (Some pm) = Raise e).
Proof.
  intros H.
  destruct (H pads_full f_m1e_9 "speed" f_50e_12 (-20)) as [e He].
  - reflexivity.
  - vm_compute. reflexivity.
  - lia.
  - vm_compute in He. discriminate He.
Qed.

(** C5, amended.  For a delay [d >= 0] and a recognized profile the tap
    count is the floor of the binary64 quotient of [d] by the worst-case tap
    delay of the profile, and is not negative.  For any delay, a tap count
    of 16 or more makes the receiver and the clock and reset generator raise
    [AssertionError], a quotient that is no finite number makes them raise
    the error of the conversion, and a tap count below 16 is accepted: the
    constructors check the upper bound only. *)
Theorem C5_taps_floor_upper_bound (pads : pads_t) (hw : bool) (d : float)
    (pm : string) (w : float) :
  iodly_worst pm = Ok w ->
  (float_ge0 d = true ->
     delay_taps d w = (q <- py_truediv d w ;; py_floor q) /\
     (forall n, delay_taps d w = Ok n -> 0 <= n)) /\
  (forall n, delay_taps d w = Ok n -> 16 <= n ->
     LiteEthPHYRGMIIRX pads (Some d) (Some pm) = Raise AssertionError /\
     LiteEthPHYRGMIICRG pads hw (Some d) (Some pm) = Raise AssertionError) /\
  (forall e, delay_taps d w = Raise e ->
     LiteEthPHYRGMIIRX pads (Some d) (Some pm) = Raise e /\
     LiteEthPHYRGMIICRG pads hw (Some d) (Some pm) = Raise e) /\
  (forall n, delay_taps d w = Ok n -> n < 16 ->
     LiteEthPHYRGMIIRX pads (Some d) (Some pm)
       = Ok {| rx_iodly := w; rx_delay_taps := n |} /\
     LiteEthPHYRGMIICRG pads hw (Some d) (Some pm)
       = Ok {| crg_iodly := w; tx_delay_taps := n;
               crg_hw_reset := hw; crg_drives_rst_n := has_rst_n pads |}).
Proof.
  intros E.
  rewrite LiteEthPHYRGMIIRX_steps, LiteEthPHYRGMIICRG_steps, E. cbn [bind].
  split; [|split; [|split]].
  - intros Hd. apply delay_taps_floor; [exact Hd|].
    exact (iodly_worst_positive pm w E).
  - intros n Hn Hge. rewrite Hn. cbn [bind].
    assert (L : Z.ltb n 16 = false) by (apply Z.ltb_ge; exact Hge).
    rewrite L. split; reflexivity.
  - intros e He. rewrite He. split; reflexivity.
  - intros n Hn Hlt. rewrite Hn. cbn [bind].
    assert (L : Z.ltb n 16 = true) by (apply Z.ltb_lt; exact Hlt).
    rewrite L. split; reflexivity.
Qed.

Lemma C5_taps_floor_upper_bound_witness :
  delay_taps f_1e_9 f_65e_12 = Ok 15 /\
  (q <- py_truediv f_1e_9 f_65e_12 ;; py_floor q) = Ok 15 /\
  LiteEthPHYRGMIIRX pads_full (Some f_2e_9) (Some "Economy") = Raise AssertionError /\
  LiteEthPHYRGMIICRG pads_full true (Some f_1e_9) (Some "Economy")
    = Ok {| crg_iodly := f_65e_12; tx_delay_taps := 15;
            crg_hw_reset := true; crg_drives_rst_n := true |}.
Proof.
  assert (E : iodly_worst "Economy" = Ok f_65e_12) by reflexivity.
  assert (T1 : delay_taps f_1e_9 f_65e_12 = Ok 15) by (vm_compute; reflexivity).
  assert (T2 : delay_taps f_2e_9 f_65e_12 = Ok 30) by (vm_compute; reflexivity).
  destruct (C5_taps_floor_upper_bound pads_full true f_1e_9 "Economy" f_65e_12 E)
    as (F & _ & _ & A).
  destruct (C5_taps_floor_upper_bound pads_full true f_2e_9 "Economy" f_65e_12 E)
    as (_ & R & _).
  destruct (F eq_refl) as [F1 _].
  destruct (R 30 T2) as [R1 _]; [discriminate|].
  destruct (A 15 T1) as [_ A2]; [reflexivity|].
  split; [exact T1|]. split; [rewrite <- F1; exact T1|].
  split; [exact R1|exact A2].
Defined.

(** ** Bits *)

Lemma bit_pack_0 (b : bool) (r : list bool) : bit (pack (b :: r)) 0 = b.
Proof.
  unfold bit. cbn [pack Z.of_nat].
  rewrite Z.add_comm. apply Z.testbit_0_r.
Qed.

Lemma bit_pack_S (b : bool) (r : list bool) (i : nat) :
  bit (pack (b :: r)) (S i) = bit (pack r) i.
Proof.
  unfold bit. cbn [pack]. rewrite Nat2Z.inj_succ, Z.add_comm.
  apply Z.testbit_succ_r. apply Nat2Z.is_nonneg.
Qed.

Lemma bit_0_0 : bit 0 0 = false.
Proof. reflexivity. Qed.

Lemma b2z_bit (x : Z) (i : nat) :
  Z.b2z (bit x i) = (x / 2 ^ Z.of_nat i) mod 2.
Proof. unfold bit. apply Z.testbit_spec'. apply Nat2Z.is_nonneg. Qed.

(** The four low bits and the four high bits of a byte, packed again. *)
Lemma pack_low_nibble (x : Z) :
  pack [bit x 0; bit x 1; bit x 2; bit x 3] = x mod 16.
Proof.
  cbn [pack]. rewrite !b2z_bit. cbn [Z.of_nat Pos.of_succ_nat Pos.succ].
  change (2 ^ 0) with 1. change (2 ^ 1) with 2.
  change (2 ^ 2) with 4. change (2 ^ 3) with 8.
  Z.to_euclidean_division_equations. lia.
Qed.

Lemma pack_high_nibble (x : Z) :
  pack [bit x 4; bit x 5; bit x 6; bit x 7] = (x / 16) mod 16.
Proof.
  cbn [pack]. rewrite !b2z_bit. cbn [Z.of_nat Pos.of_succ_nat Pos.succ].
  change (2 ^ 4) with 16. change (2 ^ 5) with 32.
  change (2 ^ 6) with 64. change (2 ^ 7) with 128.
  Z.to_euclidean_division_equations. lia.
Qed.

(** ** Transmit path *)

(** C7.  In every tick, data line [i] carries bit [i] of the byte on the
    rising edge and bit [4 + i] on the falling edge, so the four lines carry
    the low nibble, then the high nibble; the control line carries the valid
    bit on both edges; the sink is always ready.  The bytes 0x00, 0xFF and
    0xAA give the nibble pairs (0x0, 0x0), (0xF, 0xF) and (0xA, 0xA). *)
Theorem C7_tx_ddr_encode (sink : stream) :
  tx_data (tx_pads_of sink) =
    [ {| rise := bit (data sink) 0; fall := bit (data sink) 4 |};
      {| rise := bit (data sink) 1; fall := bit (data sink) 5 |};
      {| rise := bit (data sink) 2; fall := bit (data sink) 6 |};
      {| rise := bit (data sink) 3; fall := bit (data sink) 7 |} ] /\
  rise_nibble (tx_pads_of sink) = data sink mod 16 /\
  fall_nibble (tx_pads_of sink) = (data sink / 16) mod 16 /\
  tx_ctl (tx_pads_of sink) = {| rise := valid sink; fall := valid sink |} /\
  tx_sink_ready sink = true /\
  map (fun x => (rise_nibble (tx_pads_of (byte_stream x)),
                 fall_nibble (tx_pads_of (byte_stream x)),
                 tx_ctl (tx_pads_of (byte_stream x))))
      [0x00; 0xFF; 0xAA]
    = [ (0x0, 0x0, {| rise := true; fall := true |});
        (0xF, 0xF, {| rise := true; fall := true |});
        (0xA, 0xA, {| rise := true; fall := true |}) ].
Proof.
  split; [reflexivity|].
  split; [apply pack_low_nibble|].
  split; [apply pack_high_nibble|].
  repeat split.
Qed.

(** ** Receive path *)

Section Receiver.

Variable m : rx_module.
Variable rsts : nat -> bool.
Variable pads : nat -> rx_pads.
Variable s0 : rx_state.

Local Abbreviation run := (rx_run m rsts pads s0).

Lemma rx_ctl_sample_bit0 (p : rx_pads) :
  bit (rx_ctl_sample m p) 0 = rise (rx_ctl_pad p).
Proof. unfold rx_ctl_sample, DDRInput, CC_IBUF. apply bit_pack_0. Qed.

Lemma rx_ctl_sample_bit1 (p : rx_pads) :
  bit (rx_ctl_sample m p) 1 = fall (rx_ctl_pad p).
Proof.
  unfold rx_ctl_sample, DDRInput, CC_IBUF.
  rewrite bit_pack_S. apply bit_pack_0.
Qed.

Lemma run_S (t : nat) : run (S t) = rx_step m (rsts t) (pads t) (run t).
Proof. reflexivity. Qed.

(** The [DDRInput] cells hold the sample of the tick before. *)
Lemma run_rx_ctl (t : nat) : rx_ctl (run (S t)) = rx_ctl_sample m (pads t).
Proof. reflexivity. Qed.

Lemma run_rx_data (t : nat) : rx_data (run (S t)) = rx_data_sample m (pads t).
Proof. reflexivity. Qed.

(** [source.valid] and bit 0 of [rx_ctl_reg_d] are loaded from the same
    bit at every clock edge. *)
Lemma run_valid_reg_d (t : nat) :
  bit (rx_ctl_reg_d (run (S t))) 0 = source_valid (run (S t)).
Proof.
  rewrite run_S. unfold rx_step. cbn [rx_ctl_reg_d source_valid].
  destruct (rsts t); reflexivity.
Qed.

Lemma run_reg_d (t : nat) :
  rsts t = false -> rx_ctl_reg_d (run (S t)) = rx_ctl_reg (run t).
Proof.
  intros H. rewrite run_S. unfold rx_step. cbn [rx_ctl_reg_d].
  now rewrite H.
Qed.

Lemma run_valid (t : nat) :
  rsts t = false -> source_valid (run (S t)) = bit (rx_ctl_reg (run t)) 0.
Proof.
  intros H. rewrite run_S. unfold rx_step. cbn [source_valid].
  now rewrite H.
Qed.

Lemma run_ctl_reg (t : nat) :
  rsts (S t) = false ->
  rx_ctl_reg (run (S (S t))) = rx_ctl_sample m (pads t).
Proof.
  intros H. rewrite (run_S (S t)). unfold rx_step. cbn [rx_ctl_reg].
  now rewrite H.
Qed.

Lemma run_data_reg (t : nat) :
  rsts (S t) = false ->
  rx_data_reg (run (S (S t))) = rx_data_sample m (pads t).
Proof.
  intros H. rewrite (run_S (S t)). unfold rx_step. cbn [rx_data_reg].
  now rewrite H.
Qed.

(** In reset the registers of [self.sync] are cleared. *)
Lemma run_reset (t : nat) :
  rsts t = true ->
  rx_ctl_reg (run (S t)) = 0 /\ rx_ctl_reg_d (run (S t)) = 0 /\
  source_valid (run (S t)) = false /\ rx_last (run (S t)) = false.
Proof.
  intros H. rewrite run_S. unfold rx_last, rx_step.
  cbn [rx_ctl_reg rx_ctl_reg_d source_valid]. rewrite H. repeat split.
Qed.

(** Three ticks from the pads to the source. *)
Lemma run_valid_pad (t : nat) :
  rsts (S t) = false -> rsts (S (S t)) = false ->
  source_valid (run (3 + t)) = rise (rx_ctl_pad (pads t)).
Proof.
  intros H1 H2. cbn [Nat.add].
  rewrite (run_valid (S (S t)) H2), (run_ctl_reg t H1).
  apply rx_ctl_sample_bit0.
Qed.

Lemma run_data_pad (t : nat) :
  rsts (S t) = false ->
  source_data (run (3 + t)) = rx_data_sample m (pads t).
Proof.
  intros H1. cbn [Nat.add]. rewrite (run_S (S (S t))).
  unfold rx_step. cbn [source_data]. apply (run_data_reg t H1).
Qed.

(** [last] marks a tick on which [valid] is high and after which it is low. *)
Lemma run_last_valid (t : nat) :
  rsts (S t) = false ->
  rx_last (run (S t)) =
    source_valid (run (S t)) && negb (source_valid (run (S (S t)))).
Proof.
  intros H. unfold rx_last.
  rewrite (run_valid_reg_d t), (run_valid (S t) H).
  apply andb_comm.
Qed.

Lemma run_last_implies_valid (t : nat) :
  rx_last (run (S t)) = true -> source_valid (run (S t)) = true.
Proof.
  unfold rx_last. rewrite (run_valid_reg_d t).
  intros H. apply andb_true_iff in H. apply H.
Qed.

Lemma run_last_pad (t : nat) :
  rsts (S t) = false -> rsts (S (S t)) = false -> rsts (S (S (S t))) = false ->
  rx_last (run (3 + t)) =
    rise (rx_ctl_pad (pads t)) && negb (rise (rx_ctl_pad (pads (S t)))).
Proof.
  intros H1 H2 H3.
  change (3 + t)%nat with (S (S (S t))).
  rewrite (run_last_valid (S (S t)) H3).
  change (S (S (S t))) with (3 + t)%nat.
  change (S (3 + t)) with (3 + S t)%nat.
  rewrite (run_valid_pad t H1 H2), (run_valid_pad (S t) H2 H3).
  reflexivity.
Qed.

End Receiver.

(** *** Example traffic *)

(** [valid] is high in ticks 3 and 4, [last] in tick 4 only. *)
Example two_byte_frame_trace :
  map (fun t => (valid (two_byte_frame t), last (two_byte_frame t)))
      [0; 1; 2; 3; 4; 5; 6]%nat
  = [ (false, false); (false, false); (false, false);
      (true, false); (true, true); (false, false); (false, false) ].
Proof. reflexivity. Qed.

(** *** Latency *)

Lemma rx_data_sample_pads (m : rx_module) (p : rx_pads) :
  rx_data_sample m p =
    pack [ rise (rx_data_pad p 0); rise (rx_data_pad p 1);
           rise (rx_data_pad p 2); rise (rx_data_pad p 3);
           fall (rx_data_pad p 0); fall (rx_data_pad p 1);
           fall (rx_data_pad p 2); fall (rx_data_pad p 3) ].
Proof. reflexivity. Qed.

(** C4.  When the domain is not in reset at the two clock edges in between,
    [valid] at tick [T + 3] is the rising-edge sample of the control line at
    tick [T], and [data] is the byte sampled from the data lines at tick [T]:
    a control line that goes high at tick [T] makes [valid] go high at tick
    [T + 3].  The tap count of the delay line has no part in it. *)
Theorem C4_rx_latency (m m' : rx_module) (rsts : nat -> bool)
    (pads : nat -> rx_pads) (s0 : rx_state) (T : nat) :
  rsts (S T) = false -> rsts (S (S T)) = false ->
  valid (rx_source (rx_run m rsts pads s0 (3 + T))) = rise (rx_ctl_pad (pads T)) /\
  data (rx_source (rx_run m rsts pads s0 (3 + T))) =
    pack [ rise (rx_data_pad (pads T) 0); rise (rx_data_pad (pads T) 1);
           rise (rx_data_pad (pads T) 2); rise (rx_data_pad (pads T) 3);
           fall (rx_data_pad (pads T) 0); fall (rx_data_pad (pads T) 1);
           fall (rx_data_pad (pads T) 2); fall (rx_data_pad (pads T) 3) ] /\
  valid (rx_source (rx_run m' rsts pads s0 (3 + T)))
    = valid (rx_source (rx_run m rsts pads s0 (3 + T))) /\
  data (rx_source (rx_run m' rsts pads s0 (3 + T)))
    = data (rx_source (rx_run m rsts pads s0 (3 + T))).
Proof.
  intros H1 H2. unfold rx_source. cbn [valid data].
  rewrite !run_valid_pad, !run_data_pad, !rx_data_sample_pads by assumption.
  repeat split.
Qed.

Lemma C4_rx_latency_witness :
  valid (rx_source (rx_run (rx_taps 0) no_reset (frame_pads 0 2) rx_reset_state 2)) = false /\
  valid (rx_source (rx_run (rx_taps 0) no_reset (frame_pads 0 2) rx_reset_state 3)) = true /\
  valid (rx_source (rx_run (rx_taps 15) no_reset (frame_pads 0 2) rx_reset_state 3)) = true.
Proof.
  destruct (C4_rx_latency (rx_taps 0) (rx_taps 15) no_reset (frame_pads 0 2)
              rx_reset_state 0 eq_refl eq_refl) as (V & _ & V' & _).
  split; [reflexivity|]. split; [exact V|].
  exact (eq_trans V' V).
Defined.

(** *** The last flag *)

(** C3 as stated fails, whichever two consecutive registers of the control
    path are taken for stage 1 and stage 2: in tick 4 of the frame of two
    bytes [last] is high, while the formula is low both with [rx_ctl_reg]
    for stage 1 and [source.valid] for stage 2 and with [rx_ctl] for stage 1
    and [rx_ctl_reg] for stage 2. *)
Lemma C3_formula_fails :
  ~ last_is_formula (fun s => bit (rx_ctl_reg s) 0) source_valid /\
  ~ last_is_formula (fun s => bit (rx_ctl s) 0) (fun s => bit (rx_ctl_reg s) 0).
Proof.
  split; intros H;
    specialize (H (rx_taps 0) no_reset (frame_pads 0 2) rx_reset_state 3%nat);
    vm_compute in H; discriminate H.
Qed.

(** C3, amended.  On every tick [last] is [~rx_ctl_reg[0] & rx_ctl_reg_d[0]];
    when the domain was not in reset at the clock edge before, [rx_ctl_reg_d]
    is [rx_ctl_reg] of the tick before, so that [last] is high exactly when
    bit 0 of the one register [rx_ctl_reg] was high in the tick before and is
    low now; after a clock edge in reset [last] is low. *)
Theorem C3_last_falling_edge (m : rx_module) (rsts : nat -> bool)
    (pads : nat -> rx_pads) (s0 : rx_state) (t : nat) :
  last (rx_source (rx_run m rsts pads s0 (S t)))
    = negb (bit (rx_ctl_reg (rx_run m rsts pads s0 (S t))) 0)
      && bit (rx_ctl_reg_d (rx_run m rsts pads s0 (S t))) 0 /\
  (rsts t = false ->
     rx_ctl_reg_d (rx_run m rsts pads s0 (S t)) = rx_ctl_reg (rx_run m rsts pads s0 t) /\
     last (rx_source (rx_run m rsts pads s0 (S t)))
       = negb (bit (rx_ctl_reg (rx_run m rsts pads s0 (S t))) 0)
         && bit (rx_ctl_reg (rx_run m rsts pads s0 t)) 0) /\
  (rsts t = true -> last (rx_source (rx_run m rsts pads s0 (S t))) = false).
Proof.
  split; [reflexivity|]. split.
  - intros H. split; [exact (run_reg_d m rsts pads s0 t H)|].
    cbn [rx_source last]. unfold rx_last.
    now rewrite (run_reg_d m rsts pads s0 t H).
  - intros H. apply (run_reset m rsts pads s0 t H).
Qed.

Lemma C3_last_falling_edge_witness :
  bit (rx_ctl_reg (rx_run (rx_taps 0) no_reset (frame_pads 0 2) rx_reset_state 3)) 0 = true /\
  bit (rx_ctl_reg (rx_run (rx_taps 0) no_reset (frame_pads 0 2) rx_reset_state 4)) 0 = false /\
  last (two_byte_frame 4) = true.
Proof.
  destruct (C3_last_falling_edge (rx_taps 0) no_reset (frame_pads 0 2)
              rx_reset_state 3) as (_ & F & _).
  destruct (F eq_refl) as [_ L].
  split; [reflexivity|]. split; [reflexivity|].
  unfold two_byte_frame. rewrite L. reflexivity.
Defined.

(** For the frame of two bytes the final valid byte is at tick 4; [last] is
    high at tick 4 and low at tick 5. *)
Lemma C2_last_not_after_final_byte :
  valid (two_byte_frame 4) = true /\ valid (two_byte_frame 5) = false /\
  last (two_byte_frame 4) = true /\ last (two_byte_frame 5) = false /\
  ~ last_after_final_byte two_byte_frame.
Proof.
  repeat (split; [reflexivity|]).
  intros H. specialize (H 4%nat eq_refl eq_refl). discriminate H.
Qed.

(** C2, amended.  [last] is never high on a tick on which [valid] is low.
    When the domain is not in reset, [last] is high exactly on a tick on
    which [valid] is high and after which [valid] is low, which is the tick at
    which the fall of the control line has reached [rx_ctl_reg] and not yet
    [source.valid].  Hence for a frame that keeps the control line high
    during [n] ticks from tick [T] on, [valid] is high during the [n] ticks
    from [T + 3] on and [last] is high on the last of them only: once per
    frame, on the tick of the final valid byte. *)
Theorem C2_last_on_final_byte (m : rx_module) (rsts : nat -> bool)
    (pads : nat -> rx_pads) (s0 : rx_state) :
  (forall t, last (rx_source (rx_run m rsts pads s0 (S t))) = true ->
             valid (rx_source (rx_run m rsts pads s0 (S t))) = true) /\
  (forall t, rsts (S t) = false ->
     last (rx_source (rx_run m rsts pads s0 (S t)))
       = valid (rx_source (rx_run m rsts pads s0 (S t)))
         && negb (valid (rx_source (rx_run m rsts pads s0 (S (S t)))))) /\
  ((forall t, rsts t = false) ->
   forall T n,
     (forall k, (k < n)%nat -> rise (rx_ctl_pad (pads (T + k)%nat)) = true) ->
     rise (rx_ctl_pad (pads (T + n)%nat)) = false ->
     (forall k, (k < n)%nat ->
        valid (rx_source (rx_run m rsts pads s0 (3 + (T + k)))) = true /\
        last (rx_source (rx_run m rsts pads s0 (3 + (T + k)))) = Nat.eqb (S k) n) /\
     valid (rx_source (rx_run m rsts pads s0 (3 + (T + n)))) = false /\
     last (rx_source (rx_run m rsts pads s0 (3 + (T + n)))) = false).
Proof.
  split; [|split].
  - intros t. apply run_last_implies_valid.
  - intros t H. apply (run_last_valid m rsts pads s0 t H).
  - intros R T n Hhigh Hlow.
    assert (V : forall t, valid (rx_source (rx_run m rsts pads s0 (3 + t)))
                          = rise (rx_ctl_pad (pads t))).
    { intros t. apply run_valid_pad; apply R. }
    assert (L : forall t, last (rx_source (rx_run m rsts pads s0 (3 + t)))
                          = rise (rx_ctl_pad (pads t))
                            && negb (rise (rx_ctl_pad (pads (S t))))).
    { intros t. apply run_last_pad; apply R. }
    split; [|split].
    + intros k Hk. rewrite V, L, (Hhigh k Hk). split; [reflexivity|].
      cbn [andb]. rewrite <- Nat.add_succ_r.
      destruct (Nat.eqb_spec (S k) n) as [E|E].
      * rewrite E, Hlow. reflexivity.
      * rewrite (Hhigh (S k)) by lia. reflexivity.
    + rewrite V. exact Hlow.
    + rewrite L, Hlow. reflexivity.
Qed.

Lemma C2_last_on_final_byte_witness :
  valid (two_byte_frame 3) = true /\ last (two_byte_frame 3) = false /\
  valid (two_byte_frame 4) = true /\ last (two_byte_frame 4) = true /\
  valid (two_byte_frame 5) = false /\ last (two_byte_frame 5) = false.
Proof.
  destruct (C2_last_on_final_byte (rx_taps 0) no_reset (frame_pads 0 2)
              rx_reset_state) as (_ & _ & F).
  assert (Hhigh : forall k, (k < 2)%nat ->
            rise (rx_ctl_pad (frame_pads 0 2 (0 + k)%nat)) = true).
  { intros [|[|k]] Hk; [reflexivity|reflexivity|].
    exfalso. apply (Nat.nlt_0_r k). apply Nat.succ_lt_mono.
    apply Nat.succ_lt_mono. exact Hk. }
  destruct (F (fun _ => eq_refl) 0%nat 2%nat Hhigh eq_refl) as (B & V & L).
  destruct (B 0%nat) as [V0 L0]; [apply Nat.lt_0_succ|].
  destruct (B 1%nat) as [V1 L1]; [apply Nat.lt_succ_diag_r|].
  split; [exact V0|]. split; [exact L0|]. split; [exact V1|].
  split; [exact L1|]. split; [exact V|exact L].
Defined.

(** ** Reset *)

Lemma LiteEthPHYRGMIICRG_fields (pads : pads_t) (hw : bool)
    (td : option float) (pm : option string) (crg : crg_module) :
  LiteEthPHYRGMIICRG pads hw td pm = Ok crg ->
  crg_hw_reset crg = hw /\ crg_drives_rst_n crg = has_rst_n pads.
Proof.
  unfold LiteEthPHYRGMIICRG.
  destruct (iodly_worst (default "undefined" pm)) as [w|e]; [|discriminate].
  cbn [bind].
  destruct (delay_taps (default f_2e_9 td) w) as [n|e]; [|discriminate].
  cbn [bind].
  destruct (py_assert (Z.ltb n 16)) as [u|e]; [|discriminate].
  cbn [bind]. intros [= <-]. split; reflexivity.
Qed.

(** A clock edge in reset clears the registers of [self.sync]. *)
Lemma rx_step_reset (m : rx_module) (p : rx_pads) (s : rx_state) :
  rx_ctl_reg (rx_step m true p s) = 0 /\
  source_valid (rx_step m true p s) = false /\
  rx_last (rx_step m true p s) = false.
Proof. repeat split. Qed.

(** With [rx_ctl_reg] cleared, the next tick has neither [valid] nor [last]. *)
Lemma rx_step_flush (m : rx_module) (r : bool) (p : rx_pads) (s : rx_state) :
  rx_ctl_reg s = 0 ->
  source_valid (rx_step m r p s) = false /\ rx_last (rx_step m r p s) = false.
Proof.
  intros H. unfold rx_last, rx_step.
  cbn [rx_ctl_reg rx_ctl_reg_d source_valid]. rewrite H.
  destruct r; split; try reflexivity.
  rewrite bit_0_0. apply andb_false_r.
Qed.

(** Once set, the synchronizer keeps the domain in reset for two more clock
    edges. *)
Lemma rsync_step_set (s : rsync_state) :
  rsync_step true s = {| rst_meta := true; rst_sync := true |}.
Proof. reflexivity. Qed.

Lemma cd_rst_after_set (r r' : bool) (s : rsync_state) :
  cd_rst r (rsync_step true s) = true /\
  cd_rst r' (rsync_step r (rsync_step true s)) = true.
Proof.
  unfold cd_rst. rewrite rsync_step_set. cbn [rst_sync].
  split; [apply orb_true_r|].
  destruct r; cbn [rsync_step rst_sync rst_meta]; apply orb_true_r.
Qed.

Lemma crg_example_built :
  LiteEthPHYRGMIICRG pads_full true (Some f_0) (Some "speed") = Ok crg_example.
Proof. vm_compute. reflexivity. Qed.

(** With the reset request set and a valid byte on the sink, the control
    line of the transmitter is high on both edges. *)
Lemma C8_tx_not_idle_in_reset :
  phy_reset crg_example in_reset_with_byte = true /\
  tx_ctl (out_tx_pads (phy_output crg_example phy_reset_state in_reset_with_byte))
    = busy_line /\
  ~ tx_idle_in_reset.
Proof.
  split; [reflexivity|]. split; [reflexivity|].
  intros H.
  specialize (H crg_example phy_reset_state in_reset_with_byte eq_refl).
  discriminate H.
Qed.

Lemma phy_step_in_reset (crg : crg_module) (rx : rx_module) (i : phy_in)
    (s : phy_state) :
  cd_rst (phy_reset crg i) (st_rx_sync s) = true ->
  st_rx (phy_step crg rx i s) = rx_step rx true (in_rx_pads i) (st_rx s).
Proof. intros H. unfold phy_step. cbn [st_rx]. now rewrite H. Qed.

Lemma phy_quiet_after_reset (crg : crg_module) (rx : rx_module)
    (ins : nat -> phy_in) (s0 : phy_state) (t : nat) :
  phy_reset crg (ins t) = true ->
  quiet (phy_run crg rx ins s0 (S t)) /\
  quiet (phy_run crg rx ins s0 (S (S t))) /\
  quiet (phy_run crg rx ins s0 (S (S (S t)))) /\
  quiet (phy_run crg rx ins s0 (S (S (S (S t))))).
Proof.
  intros H. unfold quiet.
  set (s := phy_run crg rx ins s0 t).
  set (s1 := phy_run crg rx ins s0 (S t)).
  set (s2 := phy_run crg rx ins s0 (S (S t))).
  set (s3 := phy_run crg rx ins s0 (S (S (S t)))).
  set (s4 := phy_run crg rx ins s0 (S (S (S (S t))))).
  assert (E1 : st_rx_sync s1 = rsync_step true (st_rx_sync s)).
  { unfold s1. cbn [phy_run]. unfold phy_step. cbn [st_rx_sync].
    now rewrite H. }
  assert (E2 : st_rx_sync s2
               = rsync_step (phy_reset crg (ins (S t)))
                            (rsync_step true (st_rx_sync s))).
  { unfold s2. cbn [phy_run]. unfold phy_step at 1. cbn [st_rx_sync].
    fold s. change (phy_step crg rx (ins t) s) with s1. now rewrite E1. }
  destruct (cd_rst_after_set (phy_reset crg (ins (S t)))
              (phy_reset crg (ins (S (S t)))) (st_rx_sync s)) as [C1 C2].
  rewrite <- E1 in C1. rewrite <- E2 in C2.
  assert (X1 : st_rx s1 = rx_step rx true (in_rx_pads (ins t)) (st_rx s)).
  { apply phy_step_in_reset. fold s. now rewrite H. }
  assert (X2 : st_rx s2 = rx_step rx true (in_rx_pads (ins (S t))) (st_rx s1)).
  { apply (phy_step_in_reset crg rx (ins (S t)) s1 C1). }
  assert (X3 : st_rx s3 = rx_step rx true (in_rx_pads (ins (S (S t)))) (st_rx s2)).
  { apply (phy_step_in_reset crg rx (ins (S (S t))) s2 C2). }
  assert (X4 : st_rx s4
               = rx_step rx (cd_rst (phy_reset crg (ins (S (S (S t))))) (st_rx_sync s3))
                         (in_rx_pads (ins (S (S (S t))))) (st_rx s3)).
  { reflexivity. }
  rewrite X1, X2, X4.
  destruct (rx_step_reset rx (in_rx_pads (ins t)) (st_rx s)) as (_ & V1 & L1).
  destruct (rx_step_reset rx (in_rx_pads (ins (S t))) (st_rx s1)) as (_ & V2 & L2).
  destruct (rx_step_reset rx (in_rx_pads (ins (S (S t)))) (st_rx s2)) as (Z3 & V3 & L3).
  rewrite <- X3 in Z3, V3, L3.
  split; [split; assumption|]. split; [split; assumption|].
  split; [split; assumption|].
  apply rx_step_flush. exact Z3.
Qed.

(** C8, amended.  When the effective reset is high at a clock edge, the
    source of the receiver has neither [valid] nor [last] during the four
    ticks that follow, whatever the reset and the pads do meanwhile: the
    registers are cleared at that edge, the synchronizer holds the domain in
    reset for two more edges, and the cleared [rx_ctl_reg] takes one more
    tick to pass.  The transmitter has no register and no reset: in every
    tick its pads are a function of the sink alone. *)
Theorem C8_reset_clears_rx (crg : crg_module) (rx : rx_module)
    (ins : nat -> phy_in) (s0 : phy_state) (t : nat) :
  phy_reset crg (ins t) = true ->
  map (fun k => let o := out_source (phy_output crg (phy_run crg rx ins s0 (k + t))
                                                (ins (k + t)%nat)) in
                (valid o, last o))
      [1; 2; 3; 4]%nat
    = [(false, false); (false, false); (false, false); (false, false)] /\
  (forall k, out_tx_pads (phy_output crg (phy_run crg rx ins s0 k) (ins k))
             = tx_pads_of (in_sink (ins k))).
Proof.
  intros H. split; [|reflexivity].
  destruct (phy_quiet_after_reset crg rx ins s0 t H)
    as ((V1 & L1) & (V2 & L2) & (V3 & L3) & (V4 & L4)).
  cbn [map Nat.add]. unfold phy_output.
  cbn [out_source rx_source valid last].
  rewrite V1, L1, V2, L2, V3, L3, V4, L4. reflexivity.
Qed.

Lemma C8_reset_clears_rx_witness :
  map (fun k => let o := out_source (phy_output crg_example
                  (phy_run crg_example (rx_taps 0) reset_in_frame
                           phy_released_state (k + 2))
                  (reset_in_frame (k + 2)%nat)) in
                (valid o, last o))
      [1; 2; 3; 4]%nat
    = [(false, false); (false, false); (false, false); (false, false)] /\
  valid (out_source (phy_output crg_example
           (phy_run crg_example (rx_taps 0) reset_in_frame phy_released_state 7)
           (reset_in_frame 7))) = true.
Proof.
  destruct (C8_reset_clears_rx crg_example (rx_taps 0) reset_in_frame
              phy_released_state 2 eq_refl) as [Q _].
  split; [exact Q|reflexivity].
Defined.

(** C9.  For a clock and reset generator built with [with_hw_init_reset]
    and a [pads] object, at every tick of every run the effective reset is
    the reset request bit, or-ed with the power-on pulse when
    [with_hw_init_reset] is set; and [pads.rst_n] is driven exactly when the
    pad exists, with the negation of the effective reset. *)
Theorem C9_effective_reset (pads : pads_t) (with_hw_init_reset : bool)
    (td : option float) (pm : option string) (crg : crg_module)
    (rx : rx_module) (ins : nat -> phy_in) (s0 : phy_state) (t : nat) :
  LiteEthPHYRGMIICRG pads with_hw_init_reset td pm = Ok crg ->
  phy_reset crg (ins t)
    = in_storage (ins t) || (with_hw_init_reset && in_hw_reset (ins t)) /\
  (with_hw_init_reset = false -> phy_reset crg (ins t) = in_storage (ins t)) /\
  out_rst_n (phy_output crg (phy_run crg rx ins s0 t) (ins t))
    = if has_rst_n pads then Some (negb (phy_reset crg (ins t))) else None.
Proof.
  intros B. apply LiteEthPHYRGMIICRG_fields in B as [Hhw Hpad].
  unfold phy_output, phy_reset, crg_rst_n, crg_reset.
  cbn [out_rst_n]. rewrite Hhw, Hpad.
  split; [|split].
  - destruct with_hw_init_reset; cbn [andb]; [reflexivity|].
    now rewrite orb_false_r.
  - intros ->. reflexivity.
  - reflexivity.
Qed.

Lemma C9_effective_reset_witness :
  phy_reset crg_example (reset_in_frame 2) = true /\
  out_rst_n (phy_output crg_example
               (phy_run crg_example (rx_taps 0) reset_in_frame phy_released_state 2)
               (reset_in_frame 2)) = Some false.
Proof.
  destruct (C9_effective_reset pads_full true (Some f_0) (Some "speed")
              crg_example (rx_taps 0) reset_in_frame phy_released_state 2
              eq_refl) as (R & _ & N).
  split; [exact R|exact N].
Defined.

(** * Further properties of the code *)

(** ** Construction *)

Lemma ascii_lower_idem (c : ascii) : ascii_lower (ascii_lower c) = ascii_lower c.
Proof.
  destruct c as [b0 b1 b2 b3 b4 b5 b6 b7].
  destruct b0, b1, b2, b3, b4, b5, b6, b7; reflexivity.
Qed.

Lemma lower_idem (s : string) : lower (lower s) = lower s.
Proof.
  induction s as [|c r IH]; [reflexivity|].
  cbn [lower]. now rewrite ascii_lower_idem, IH.
Qed.

Lemma iodly_worst_fold (a b : string) :
  lower a = lower b -> iodly_worst a = iodly_worst b.
Proof. intros H. unfold iodly_worst. now rewrite H. Qed.

(** X1.  The profile name is used through its lower-case form only: two
    names with the same lower-case form, such as a name and its own
    lower-case form, give the same result, error included, in the table
    lookup and in the three constructors that take a profile. *)
Theorem X1_profile_case_insensitive (pads : pads_t) (a b : string) :
  lower a = lower b ->
  iodly_worst a = iodly_worst b /\
  (forall d, LiteEthPHYRGMIIRX pads d (Some a) = LiteEthPHYRGMIIRX pads d (Some b)) /\
  (forall hw d, LiteEthPHYRGMIICRG pads hw d (Some a)
                = LiteEthPHYRGMIICRG pads hw d (Some b)) /\
  (forall hw td rd, LiteEthPHYRGMII pads hw td rd (Some a)
                    = LiteEthPHYRGMII pads hw td rd (Some b)) /\
  lower (lower a) = lower a.
Proof.
  intros H. pose proof (iodly_worst_fold a b H) as E.
  split; [exact E|]. split; [|split; [|split]].
  - intros d. unfold LiteEthPHYRGMIIRX. cbn [default]. now rewrite E.
  - intros hw d. unfold LiteEthPHYRGMIICRG. cbn [default]. now rewrite E.
  - intros hw td rd. unfold LiteEthPHYRGMII, LiteEthPHYRGMIICRG.
    cbn [default]. now rewrite E.
  - apply lower_idem.
Qed.

Lemma X1_profile_case_insensitive_witness :
  LiteEthPHYRGMIIRX pads_full (Some f_1e_9) (Some "EcoNomy")
    = LiteEthPHYRGMIIRX pads_full (Some f_1e_9) (Some "economy") /\
  LiteEthPHYRGMIICRG pads_full true (Some f_1e_9) (Some "TURBO")
    = LiteEthPHYRGMIICRG pads_full true (Some f_1e_9) (Some "turbo").
Proof.
  destruct (X1_profile_case_insensitive pads_full "EcoNomy" "economy" eq_refl)
    as (_ & R & _).
  destruct (X1_profile_case_insensitive pads_full "TURBO" "turbo" eq_refl)
    as (_ & _ & C & _).
  split; [exact (R (Some f_1e_9))|exact (C true (Some f_1e_9))].
Defined.

(** X2.  The default delay [2e-9] of the receiver and of the clock and reset
    generator is beyond the delay line for every profile of the table: built
    with a recognized profile and without a delay, both raise
    [AssertionError] (the tap counts are 40, 30 and 23). *)
Theorem X2_default_delay_raises (pads : pads_t) (hw : bool) (pm : string) :
  recognized pm = true ->
  (exists w n, iodly_worst pm = Ok w /\ delay_taps f_2e_9 w = Ok n /\ 16 <= n) /\
  LiteEthPHYRGMIIRX pads None (Some pm) = Raise AssertionError /\
  LiteEthPHYRGMIICRG pads hw None (Some pm) = Raise AssertionError.
Proof.
  intros H. unfold LiteEthPHYRGMIIRX, LiteEthPHYRGMIICRG, recognized in *.
  cbn [default]. rewrite iodly_worst_cases.
  destruct (String.eqb "speed" (lower pm)).
  { split; [exists f_50e_12, 40|split]; vm_compute; intuition congruence. }
  destruct (String.eqb "economy" (lower pm)).
  { split; [exists f_65e_12, 30|split]; vm_compute; intuition congruence. }
  destruct (String.eqb "lowpower" (lower pm)).
  { split; [exists f_85e_12, 23|split]; vm_compute; intuition congruence. }
  discriminate H.
Qed.

Lemma X2_default_delay_raises_witness :
  LiteEthPHYRGMIIRX pads_full None (Some "LowPower") = Raise AssertionError /\
  LiteEthPHYRGMIICRG pads_full false None (Some "speed") = Raise AssertionError.
Proof.
  destruct (X2_default_delay_raises pads_full false "LowPower" eq_refl)
    as (_ & R & _).
  destruct (X2_default_delay_raises pads_full false "speed" eq_refl)
    as (_ & _ & C).
  split; [exact R|exact C].
Defined.

(** X3.  [LiteEthPHYRGMII] returns no module, whatever its arguments: when
    the clock and reset generator raises, that error comes out; when it is
    built, the receiver raises [KeyError("undefined")].  The outcome depends
    neither on [rx_delay] nor on the pads. *)
Theorem X3_top_level_never_built (pads pads' : pads_t) (hw : option bool)
    (td rd rd' : option float) (pm : option string) :
  LiteEthPHYRGMII pads hw td rd pm =
    match LiteEthPHYRGMIICRG pads (default true hw) (Some (default f_0 td))
                             (Some (default "undefined" pm)) with
    | Ok _ => Raise (KeyError "undefined")
    | Raise e => Raise e
    end /\
  is_ok (LiteEthPHYRGMII pads hw td rd pm) = false /\
  LiteEthPHYRGMII pads' hw td rd' pm = LiteEthPHYRGMII pads hw td rd pm.
Proof.
  assert (G : forall p r,
    LiteEthPHYRGMII p hw td r pm =
      match (w <- iodly_worst (default "undefined" pm) ;;
             n <- delay_taps (default f_0 td) w ;;
             py_assert (Z.ltb n 16)) with
      | Ok _ => Raise (KeyError "undefined")
      | Raise e => Raise e
      end).
  { intros p r. unfold LiteEthPHYRGMII, LiteEthPHYRGMIICRG. cbn [default].
    destruct (iodly_worst (default "undefined" pm)) as [w|e]; [|reflexivity].
    cbn [bind].
    destruct (delay_taps (default f_0 td) w) as [n|e]; [|reflexivity].
    cbn [bind].
    destruct (py_assert (Z.ltb n 16)) as [u|e]; reflexivity. }
  split; [|split].
  - rewrite G. unfold LiteEthPHYRGMIICRG. cbn [default].
    destruct (iodly_worst (default "undefined" pm)) as [w|e]; [|reflexivity].
    cbn [bind].
    destruct (delay_taps (default f_0 td) w) as [n|e]; [|reflexivity].
    cbn [bind].
    destruct (py_assert (Z.ltb n 16)) as [u|e]; reflexivity.
  - rewrite G.
    destruct (w <- iodly_worst (default "undefined" pm) ;;
              n <- delay_taps (default f_0 td) w ;;
              py_assert (Z.ltb n 16)); reflexivity.
  - now rewrite !G.
Qed.


(** X4.  A receiver or a clock and reset generator that has been built
    holds the worst-case tap delay of its profile, a positive number, and
    the tap count computed from it, which is below 16, and not negative when
    the delay is not negative: the delay parameter handed to the delay line is
    then within 0..15. *)
Theorem X4_built_taps_in_range (pads : pads_t) (hw : bool) (d : option float)
    (pm : option string) (m : rx_module) (c : crg_module) :
  (LiteEthPHYRGMIIRX pads d pm = Ok m ->
     iodly_worst (default "undefined" pm) = Ok (rx_iodly m) /\
     positive_finite (rx_iodly m) = true /\
     delay_taps (default f_2e_9 d) (rx_iodly m) = Ok (rx_delay_taps m) /\
     rx_delay_taps m < 16 /\
     (float_ge0 (default f_2e_9 d) = true -> 0 <= rx_delay_taps m)) /\
  (LiteEthPHYRGMIICRG pads hw d pm = Ok c ->
     iodly_worst (default "undefined" pm) = Ok (crg_iodly c) /\
     positive_finite (crg_iodly c) = true /\
     delay_taps (default f_2e_9 d) (crg_iodly c) = Ok (tx_delay_taps c) /\
     tx_delay_taps c < 16 /\
     (float_ge0 (default f_2e_9 d) = true -> 0 <= tx_delay_taps c)).
Proof.
  unfold LiteEthPHYRGMIIRX, LiteEthPHYRGMIICRG.
  destruct (iodly_worst (default "undefined" pm)) as [w|e] eqn:E;
    [|split; discriminate].
  pose proof (iodly_worst_positive _ w E) as P. cbn [bind].
  destruct (delay_taps (default f_2e_9 d) w) as [n|e] eqn:T;
    [|split; discriminate].
  cbn [bind].
  destruct (Z.ltb_spec n 16) as [L|L]; [|split; discriminate].
  cbn [py_assert bind].
  split; intros [= <-]; cbn [rx_iodly rx_delay_taps crg_iodly tx_delay_taps];
    (split; [reflexivity|]; split; [exact P|]; split; [exact T|];
     split; [exact L|]; intros G;
     exact (proj2 (delay_taps_floor _ w G P) n T)).
Qed.

Lemma X4_built_taps_in_range_witness :
  rx_delay_taps {| rx_iodly := f_65e_12; rx_delay_taps := 15 |} < 16 /\
  0 <= tx_delay_taps crg_example.
Proof.
  destruct (X4_built_taps_in_range pads_full true (Some f_1e_9) (Some "economy")
              {| rx_iodly := f_65e_12; rx_delay_taps := 15 |} crg_example)
    as [R _].
  destruct (X4_built_taps_in_range pads_full true (Some f_0) (Some "speed")
              {| rx_iodly := f_65e_12; rx_delay_taps := 15 |} crg_example)
    as [_ C].
  destruct (R eq_refl) as (_ & _ & _ & L & _).
  destruct (C eq_refl) as (_ & _ & _ & _ & G).
  split; [exact L|exact (G eq_refl)].
Defined.



(** ** Transmit path and loopback *)

Lemma bit_mod_256 (x : Z) (i : nat) :
  (i < 8)%nat -> bit (x mod 256) i = bit x i.
Proof.
  intros H. unfold bit. change 256 with (2 ^ 8).
  apply Z.mod_pow2_bits_low. lia.
Qed.

Lemma pack_byte (x : Z) :
  pack [bit x 0; bit x 1; bit x 2; bit x 3; bit x 4; bit x 5; bit x 6; bit x 7]
  = x mod 256.
Proof.
  transitivity (pack [bit x 0; bit x 1; bit x 2; bit x 3]
                + 16 * pack [bit x 4; bit x 5; bit x 6; bit x 7]).
  { cbn [pack]. lia. }
  rewrite pack_low_nibble, pack_high_nibble.
  Z.to_euclidean_division_equations. lia.
Qed.

Lemma tx_pads_of_bits (s : stream) :
  tx_pads_of s =
    {| tx_ctl  := {| rise := valid s; fall := valid s |};
       tx_data := [ {| rise := bit (data s) 0; fall := bit (data s) 4 |};
                    {| rise := bit (data s) 1; fall := bit (data s) 5 |};
                    {| rise := bit (data s) 2; fall := bit (data s) 6 |};
                    {| rise := bit (data s) 3; fall := bit (data s) 7 |} ] |}.
Proof. reflexivity. Qed.

(** X6.  What the transmitter puts on the pads in a tick is determined by
    the valid bit and the low eight bits of [data] of the sink, and determines
    them: [last] and anything above bit 7 never reach the pads, and two
    different bytes never give the same pads. *)
Theorem X6_tx_pads_valid_and_byte (s1 s2 : stream) :
  tx_pads_of s1 = tx_pads_of s2 <->
  valid s1 = valid s2 /\ data s1 mod 256 = data s2 mod 256.
Proof.
  rewrite !tx_pads_of_bits. split.
  - intros H. injection H as Hv _ H0 H4 H1 H5 H2 H6 H3 H7.
    split; [exact Hv|].
    rewrite <- (pack_byte (data s1)), <- (pack_byte (data s2)).
    now rewrite H0, H1, H2, H3, H4, H5, H6, H7.
  - intros [Hv Hd].
    rewrite Hv.
    rewrite <- (bit_mod_256 (data s1) 0), <- (bit_mod_256 (data s1) 1),
            <- (bit_mod_256 (data s1) 2), <- (bit_mod_256 (data s1) 3),
            <- (bit_mod_256 (data s1) 4), <- (bit_mod_256 (data s1) 5),
            <- (bit_mod_256 (data s1) 6), <- (bit_mod_256 (data s1) 7) by lia.
    rewrite Hd.
    rewrite !bit_mod_256 by lia. reflexivity.
Qed.

Lemma loopback_ctl (m : rx_module) (s : stream) :
  rx_ctl_sample m (loopback (tx_pads_of s)) = if valid s then 3 else 0.
Proof. destruct s as [[|] l d]; reflexivity. Qed.

Lemma loopback_data (m : rx_module) (s : stream) :
  rx_data_sample m (loopback (tx_pads_of s)) = data s mod 256.
Proof. rewrite <- pack_byte. reflexivity. Qed.

(** X7.  With the pads of the transmitter wired to the pads of the
    receiver, the [DDRInput] cells recover the byte and the valid bit the
    transmitter was given; three ticks later the byte and the valid bit are on
    the source, and [last] is high there when the sink has no valid byte in
    the next tick.  (The domain is not in reset at the edges in between.) *)
Theorem X7_loopback (m : rx_module) (rsts : nat -> bool)
    (sinks : nat -> stream) (s0 : rx_state) (T : nat) :
  rsts (S T) = false -> rsts (S (S T)) = false ->
  rx_data_sample m (loopback (tx_pads_of (sinks T))) = data (sinks T) mod 256 /\
  bit (rx_ctl_sample m (loopback (tx_pads_of (sinks T)))) 0 = valid (sinks T) /\
  valid (rx_source (rx_run m rsts (fun t => loopback (tx_pads_of (sinks t))) s0 (3 + T)))
    = valid (sinks T) /\
  data (rx_source (rx_run m rsts (fun t => loopback (tx_pads_of (sinks t))) s0 (3 + T)))
    = data (sinks T) mod 256 /\
  (rsts (S (S (S T))) = false ->
   last (rx_source (rx_run m rsts (fun t => loopback (tx_pads_of (sinks t))) s0 (3 + T)))
     = valid (sinks T) && negb (valid (sinks (S T)))).
Proof.
  intros H1 H2.
  split; [apply loopback_data|].
  split; [apply rx_ctl_sample_bit0|].
  unfold rx_source. cbn [valid data last].
  split; [|split].
  - now rewrite run_valid_pad.
  - rewrite run_data_pad by assumption. apply loopback_data.
  - intros H3. now rewrite run_last_pad.
Qed.

Lemma X7_loopback_witness :
  data (rx_source (rx_run (rx_taps 3) no_reset
          (fun t => loopback (tx_pads_of (byte_stream (0xA5 + Z.of_nat t))))
          rx_reset_state 5)) = 0xA7.
Proof.
  destruct (X7_loopback (rx_taps 3) no_reset
              (fun t => byte_stream (0xA5 + Z.of_nat t)) rx_reset_state 2
              eq_refl eq_refl) as (_ & _ & _ & D & _).
  exact D.
Defined.

(** ** Receive path *)

Lemma pack_range (bs : list bool) :
  0 <= pack bs < 2 ^ Z.of_nat (List.length bs).
Proof.
  induction bs as [|b r IH]; [cbn; lia|].
  cbn [pack List.length]. rewrite Nat2Z.inj_succ, Z.pow_succ_r by lia.
  destruct b; cbn [Z.b2z]; lia.
Qed.

Lemma rx_ctl_sample_range (m : rx_module) (p : rx_pads) :
  0 <= rx_ctl_sample m p < 4.
Proof. unfold rx_ctl_sample, DDRInput. apply (pack_range [_; _]). Qed.

Lemma rx_data_sample_range (m : rx_module) (p : rx_pads) :
  0 <= rx_data_sample m p < 256.
Proof.
  rewrite rx_data_sample_pads. apply (pack_range [_; _; _; _; _; _; _; _]).
Qed.

(** X8.  The registers of the receiver keep within their widths: from the
    reset state, and from any other state from the third tick on, [rx_ctl],
    [rx_ctl_reg] and [rx_ctl_reg_d] are below 4 and [rx_data], [rx_data_reg]
    and [source.data] are bytes, whatever the pads and the reset do. *)
Theorem X8_rx_registers_in_width (m : rx_module) (rsts : nat -> bool)
    (pads : nat -> rx_pads) (s0 : rx_state) (t : nat) :
  rx_in_width (rx_run m rsts pads rx_reset_state t) /\
  rx_in_width (rx_run m rsts pads s0 (3 + t)) /\
  0 <= data (rx_source (rx_run m rsts pads s0 (3 + t))) < 256.
Proof.
  assert (Step : forall r p s, rx_in_width s -> rx_in_width (rx_step m r p s)).
  { intros r p s (A & B & C & D & E & F). unfold rx_in_width, rx_step.
    cbn [rx_ctl rx_data rx_ctl_reg rx_data_reg rx_ctl_reg_d source_data].
    pose proof (rx_ctl_sample_range m p). pose proof (rx_data_sample_range m p).
    repeat split; try lia; destruct r; lia. }
  assert (Three : forall r1 r2 r3 p1 p2 p3 s,
            rx_in_width (rx_step m r3 p3 (rx_step m r2 p2 (rx_step m r1 p1 s)))).
  { intros r1 r2 r3 p1 p2 p3 s. unfold rx_in_width, rx_step.
    cbn [rx_ctl rx_data rx_ctl_reg rx_data_reg rx_ctl_reg_d source_data].
    pose proof (rx_ctl_sample_range m p1). pose proof (rx_data_sample_range m p1).
    pose proof (rx_ctl_sample_range m p2). pose proof (rx_data_sample_range m p2).
    pose proof (rx_ctl_sample_range m p3). pose proof (rx_data_sample_range m p3).
    repeat split; try lia; destruct r1, r2, r3; lia. }
  assert (W0 : forall k, rx_in_width (rx_run m rsts pads rx_reset_state k)).
  { induction k as [|k IH].
    - unfold rx_in_width. cbn. lia.
    - cbn [rx_run]. apply Step. exact IH. }
  assert (W3 : forall k, rx_in_width (rx_run m rsts pads s0 (3 + k))).
  { induction k as [|k IH].
    - cbn [Nat.add rx_run]. apply Three.
    - rewrite Nat.add_succ_r. cbn [rx_run]. apply Step. exact IH. }
  split; [apply W0|]. split; [apply W3|].
  destruct (W3 t) as (_ & _ & _ & _ & _ & F). exact F.
Qed.

Lemma rx_source_agree (s s' : rx_state) :
  bit (rx_ctl_reg s) 0 = bit (rx_ctl_reg s') 0 ->
  bit (rx_ctl_reg_d s) 0 = bit (rx_ctl_reg_d s') 0 ->
  source_valid s = source_valid s' -> source_data s = source_data s' ->
  rx_source s = rx_source s'.
Proof.
  intros A B C D. unfold rx_source, rx_last. now rewrite A, B, C, D.
Qed.

(** X9.  The falling-edge sample of the control line, which the [DDRInput]
    cell captures into [rx_ctl[1]], never reaches the source: two runs whose
    pads agree on the rising-edge sample of the control line and on the four
    data lines give the same [valid], [last] and [data] in every tick. *)
Theorem X9_ctl_fall_ignored (m : rx_module) (rsts : nat -> bool)
    (pads pads' : nat -> rx_pads) (s0 : rx_state) :
  (forall t, agree_but_ctl_fall (pads t) (pads' t)) ->
  forall t, rx_source (rx_run m rsts pads s0 t)
            = rx_source (rx_run m rsts pads' s0 t).
Proof.
  intros H.
  assert (I : forall t,
    bit (rx_ctl (rx_run m rsts pads s0 t)) 0
      = bit (rx_ctl (rx_run m rsts pads' s0 t)) 0 /\
    rx_data (rx_run m rsts pads s0 t) = rx_data (rx_run m rsts pads' s0 t) /\
    bit (rx_ctl_reg (rx_run m rsts pads s0 t)) 0
      = bit (rx_ctl_reg (rx_run m rsts pads' s0 t)) 0 /\
    rx_data_reg (rx_run m rsts pads s0 t)
      = rx_data_reg (rx_run m rsts pads' s0 t) /\
    bit (rx_ctl_reg_d (rx_run m rsts pads s0 t)) 0
      = bit (rx_ctl_reg_d (rx_run m rsts pads' s0 t)) 0 /\
    source_valid (rx_run m rsts pads s0 t)
      = source_valid (rx_run m rsts pads' s0 t) /\
    source_data (rx_run m rsts pads s0 t)
      = source_data (rx_run m rsts pads' s0 t)).
  { induction t as [|t (A & B & C & D & E & F & G)].
    - repeat split.
    - destruct (H t) as [Hc Hd]. cbn [rx_run]. unfold rx_step.
      cbn [rx_ctl rx_data rx_ctl_reg rx_data_reg rx_ctl_reg_d source_valid
           source_data].
      rewrite !rx_ctl_sample_bit0, !rx_data_sample_pads.
      rewrite (Hd 0%nat), (Hd 1%nat), (Hd 2%nat), (Hd 3%nat) by lia.
      rewrite Hc, B, D, C.
      repeat split; destruct (rsts t); auto. }
  intros t. destruct (I t) as (_ & _ & C & _ & E & F & G).
  apply rx_source_agree; assumption.
Qed.

Lemma X9_ctl_fall_ignored_witness :
  rx_source (rx_run (rx_taps 0) no_reset
               (fun t => {| rx_ctl_pad := {| rise := true; fall := false |};
                            rx_data_pad := fun _ => busy_line |})
               rx_reset_state 4)
  = rx_source (rx_run (rx_taps 0) no_reset
                 (fun t => {| rx_ctl_pad := {| rise := true; fall := true |};
                              rx_data_pad := fun _ => busy_line |})
                 rx_reset_state 4).
Proof.
  apply (X9_ctl_fall_ignored (rx_taps 0) no_reset
           (fun t => {| rx_ctl_pad := {| rise := true; fall := false |};
                        rx_data_pad := fun _ => busy_line |})
           (fun t => {| rx_ctl_pad := {| rise := true; fall := true |};
                        rx_data_pad := fun _ => busy_line |})).
  intros t. split; [reflexivity|]. intros i Hi. reflexivity.
Defined.

(** X10.  [last] is never high on two ticks in a row: the tick after a tick
    with [last] has [last] low, whatever the pads and the reset do, and from
    whatever state. *)
Theorem X10_last_single_tick (m : rx_module) (rsts : nat -> bool)
    (pads : nat -> rx_pads) (s0 : rx_state) (t : nat) :
  last (rx_source (rx_run m rsts pads s0 t))
  && last (rx_source (rx_run m rsts pads s0 (S t))) = false.
Proof.
  cbn [rx_run rx_source last]. unfold rx_last, rx_step.
  cbn [rx_ctl_reg rx_ctl_reg_d].
  destruct (rsts t).
  - rewrite bit_0_0, !andb_false_r. reflexivity.
  - destruct (bit (rx_ctl_reg (rx_run m rsts pads s0 t)) 0).
    + reflexivity.
    + rewrite !andb_false_r. reflexivity.
Qed.

Lemma rx_idle_quiet (s : rx_state) :
  rx_idle s -> valid (rx_source s) = false /\ last (rx_source s) = false.
Proof.
  intros (_ & B & C & D). cbn [rx_source valid last]. unfold rx_last.
  rewrite C, D. split; [reflexivity|apply andb_false_r].
Qed.

(** X11.  No frame out of nothing: when the receiver starts with no frame
    on its way, as in the reset state, and the rising-edge sample of the
    control line stays low, the source has neither [valid] nor [last] in any
    tick, whatever the data lines, the falling-edge sample and the reset
    do. *)
Theorem X11_idle_line_no_frame (m : rx_module) (rsts : nat -> bool)
    (pads : nat -> rx_pads) (s0 : rx_state) :
  rx_idle s0 ->
  (forall t, rise (rx_ctl_pad (pads t)) = false) ->
  forall t, rx_idle (rx_run m rsts pads s0 t) /\
            valid (rx_source (rx_run m rsts pads s0 t)) = false /\
            last (rx_source (rx_run m rsts pads s0 t)) = false.
Proof.
  intros I0 H.
  assert (I : forall t, rx_idle (rx_run m rsts pads s0 t)).
  { induction t as [|t (A & B & C & D)]; [exact I0|].
    cbn [rx_run]. unfold rx_idle, rx_step.
    cbn [rx_ctl rx_ctl_reg rx_ctl_reg_d source_valid].
    rewrite rx_ctl_sample_bit0, H.
    destruct (rsts t); rewrite ?bit_0_0, ?A, ?B; repeat split. }
  intros t. split; [apply I|]. apply rx_idle_quiet. apply I.
Qed.

Lemma X11_idle_line_no_frame_witness :
  valid (rx_source (rx_run (rx_taps 0) no_reset
           (fun t => {| rx_ctl_pad := {| rise := false; fall := true |};
                        rx_data_pad := fun _ => busy_line |})
           rx_reset_state 9)) = false.
Proof.
  destruct (X11_idle_line_no_frame (rx_taps 0) no_reset
              (fun t => {| rx_ctl_pad := {| rise := false; fall := true |};
                           rx_data_pad := fun _ => busy_line |})
              rx_reset_state) with (t := 9%nat) as (_ & V & _).
  - repeat split.
  - intros t. reflexivity.
  - exact V.
Defined.

(** ** The whole PHY *)

(** The receiver inside the PHY runs on the reset of its domain. *)
Lemma phy_run_rx (crg : crg_module) (rx : rx_module) (ins : nat -> phy_in)
    (s0 : phy_state) (t : nat) :
  st_rx (phy_run crg rx ins s0 t) =
    rx_run rx
      (fun k => cd_rst (phy_reset crg (ins k)) (st_rx_sync (phy_run crg rx ins s0 k)))
      (fun k => in_rx_pads (ins k)) (st_rx s0) t.
Proof.
  induction t as [|t IH]; [reflexivity|].
  cbn [phy_run rx_run]. unfold phy_step at 1. cbn [st_rx]. now rewrite IH.
Qed.

(** Two clock edges without reset release the synchronizer. *)
Lemma phy_run_sync_released (crg : crg_module) (rx : rx_module)
    (ins : nat -> phy_in) (s0 : phy_state) (t : nat) :
  phy_reset crg (ins t) = false -> phy_reset crg (ins (S t)) = false ->
  st_rx_sync (phy_run crg rx ins s0 (S (S t)))
    = {| rst_meta := false; rst_sync := false |} /\
  st_tx_sync (phy_run crg rx ins s0 (S (S t)))
    = {| rst_meta := false; rst_sync := false |}.
Proof.
  intros H0 H1. cbn [phy_run]. unfold phy_step.
  cbn [st_rx_sync st_tx_sync]. rewrite H0, H1. split; reflexivity.
Qed.

(** X12.  In the whole PHY, when the effective reset has been low for four
    ticks in a row, from tick [T] on, the source at tick [T + 4] carries the
    valid bit and the byte the pads had at tick [T + 1], from whatever
    state the PHY was in before: two ticks release the synchronizer of the
    domain, three ticks carry the sample through the receiver. *)
Theorem X12_phy_latency_after_reset (crg : crg_module) (rx : rx_module)
    (ins : nat -> phy_in) (s0 : phy_state) (T : nat) :
  phy_reset crg (ins T) = false ->
  phy_reset crg (ins (1 + T)%nat) = false ->
  phy_reset crg (ins (2 + T)%nat) = false ->
  phy_reset crg (ins (3 + T)%nat) = false ->
  valid (out_source (phy_output crg (phy_run crg rx ins s0 (4 + T))
                                (ins (4 + T)%nat)))
    = rise (rx_ctl_pad (in_rx_pads (ins (1 + T)%nat))) /\
  data (out_source (phy_output crg (phy_run crg rx ins s0 (4 + T))
                               (ins (4 + T)%nat)))
    = rx_data_sample rx (in_rx_pads (ins (1 + T)%nat)).
Proof.
  intros H0 H1 H2 H3. cbn [Nat.add] in *.
  destruct (phy_run_sync_released crg rx ins s0 T H0 H1) as [S2 _].
  destruct (phy_run_sync_released crg rx ins s0 (S T) H1 H2) as [S3 _].
  unfold phy_output. cbn [out_source rx_source valid data].
  rewrite phy_run_rx.
  change (S (S (S (S T)))) with (3 + S T)%nat.
  rewrite run_valid_pad, run_data_pad.
  - split; reflexivity.
  - unfold cd_rst. now rewrite S2, H2.
  - unfold cd_rst. now rewrite S2, H2.
  - unfold cd_rst. now rewrite S3, H3.
Qed.

Lemma X12_phy_latency_after_reset_witness :
  valid (out_source (phy_output crg_example
           (phy_run crg_example (rx_taps 0) reset_in_frame phy_reset_state 7)
           (reset_in_frame 7))) = true.
Proof.
  destruct (X12_phy_latency_after_reset crg_example (rx_taps 0) reset_in_frame
              phy_reset_state 3 eq_refl eq_refl eq_refl eq_refl) as [V _].
  exact V.
Defined.

Lemma rsync_two_steps (r0 r1 : bool) (a b : rsync_state) :
  rsync_step r1 (rsync_step r0 a) = rsync_step r1 (rsync_step r0 b).
Proof. destruct r0, r1; reflexivity. Qed.

(** X13.  Both clock domains are fed the same reset through their own
    synchronizer: from the second clock edge on, whatever the two
    synchronizers held at first, they hold the same, so that [eth_rx] and
    [eth_tx] are in reset in exactly the same ticks. *)
Theorem X13_domains_reset_together (crg : crg_module) (rx : rx_module)
    (ins : nat -> phy_in) (s0 : phy_state) (t : nat) :
  st_rx_sync (phy_run crg rx ins s0 (2 + t))
    = st_tx_sync (phy_run crg rx ins s0 (2 + t)) /\
  cd_rst (phy_reset crg (ins (2 + t)%nat)) (st_rx_sync (phy_run crg rx ins s0 (2 + t)))
    = cd_rst (phy_reset crg (ins (2 + t)%nat)) (st_tx_sync (phy_run crg rx ins s0 (2 + t))).
Proof.
  assert (E : st_rx_sync (phy_run crg rx ins s0 (2 + t))
              = st_tx_sync (phy_run crg rx ins s0 (2 + t))).
  { cbn [Nat.add phy_run]. unfold phy_step. cbn [st_rx_sync st_tx_sync].
    apply rsync_two_steps. }
  split; [exact E|]. now rewrite E.
Qed.
